(** * gcf-cloud-build-slack: Cloud Build notifications forwarded to Slack

    A shallow embedding of the repository's JavaScript sources and the
    properties checked against it.  The repository holds several successive
    versions of one Cloud Function; each version is embedded in a module of
    its own:

    - [Original]      the first version (formatter with unguarded accesses);
    - [RepoGuarded]   index.js, first document  (fields through [mrkdwnField],
                      a 'Repo' field read from the variable [repo]);
    - [RepoPlain]     index.js, second document (same 'Repo' field, unguarded
                      destructuring);
    - [Fallback]      the version that merges [repoSource] with the
                      substitutions before rendering;
    - [Complete]      index.js, third document (status table, two webhooks,
                      notify / ignore-tag filters).

    JavaScript values are typed after the Build resource: an optional field
    is an [option] ([None] is [undefined]), a thrown exception is a
    [Throw] completion.  Strings are Rocq strings; on the ASCII text the
    formatters cut ([substring] of a commit hash) they agree with
    JavaScript's. *)

From Stdlib Require Import String Ascii List Bool.
From stdpp Require Import base option list gmap strings.
Import ListNotations.
Local Open Scope string_scope.

(** ** JavaScript conventions shared by every version *)

Inductive JsError := TypeError | ReferenceError | SyntaxError.

(** The outcome of evaluating an expression or a function body. *)
Inductive Completion (A : Type) :=
| Normal (a : A)
| Throw (e : JsError).
Arguments Normal {A} a.
Arguments Throw {A} e.

Definition bind {A B : Type} (c : Completion A) (k : A -> Completion B) : Completion B :=
  match c with
  | Normal a => k a
  | Throw e => Throw e
  end.

Notation "'let*' x ':=' c 'in' k" := (bind c (fun x => k))
  (at level 10, x name, c at level 100, k at level 200).

(** [o.f] where [o] may be [undefined]: reading a property of [undefined]
    throws a TypeError. *)
Definition member {A B : Type} (o : option A) (f : A -> B) : Completion B :=
  match o with
  | Some a => Normal (f a)
  | None => Throw TypeError
  end.

(** [(o || {}).f]: an absent object is replaced by the empty object, whose
    properties are all [undefined]. *)
Definition member_or_empty {A B : Type} (o : option A) (f : A -> option B) : option B :=
  match o with
  | Some a => f a
  | None => None
  end.

Definition nl : string := String (ascii_of_nat 10) "".

(** Truthiness of a value that is a string or [undefined]: the empty string
    and [undefined] are falsy. *)
Definition truthy (o : option string) : bool :=
  match o with
  | Some s => negb (s =? "")
  | None => false
  end.

(** [a || b] on two such values. *)
Definition js_or (a b : option string) : option string :=
  if truthy a then a else b.

(** [a || 'literal']. *)
Definition js_or_else (a : option string) (d : string) : string :=
  match a with
  | Some s => if s =? "" then d else s
  | None => d
  end.

(** A value spliced into a template literal: [undefined] prints as
    "undefined". *)
Definition str (o : option string) : string :=
  match o with
  | Some s => s
  | None => "undefined"
  end.

(** [array.includes(v)], [array.join(sep)], [s.startsWith(p)]. *)
Definition includes (l : list string) (v : string) : bool := bool_decide (v ∈ l).
Definition join (sep : string) (l : list string) : string := String.concat sep l.
Definition startsWith (p s : string) : bool := String.prefix p s.

(** ** The Build resource, as far as the formatters read it *)

Record RepoSource := {
  projectId : option string;
  repoName : option string;
  branchName : option string
}.

Record ResolvedRepoSource := {
  commitSha : option string;
  tagName : option string
}.

Record Source := { repoSource : option RepoSource }.

Record SourceProvenance := { resolvedRepoSource : option ResolvedRepoSource }.

Record Build := {
  build_id : option string;
  status : string;
  logUrl : option string;
  startTime : option string;
  finishTime : option string;
  images : option (list string);
  tags : option (list string);
  substitutions : option (gmap string string);
  source : option Source;
  sourceProvenance : option SourceProvenance
}.

(** ** The Slack message *)

(** [{ type: 'mrkdwn', text, verbatim }] *)
Record Mrkdwn := { mrkdwn_text : string; verbatim : bool }.

(** A layout block, by its [type] and the one property it carries. *)
Inductive Block :=
| SectionText (text : Mrkdwn)
| SectionFields (fields : list Mrkdwn)
| DividerBlock
| ContextBlock (elements : list Mrkdwn).

Record Message := {
  text : option string;
  color : option string;
  blocks : list Block
}.

Inductive Channel := general | failure.

(** What one invocation of the handler did: it threw (before any send), or it
    returned after handing the listed messages, in order, to the webhooks. *)
Inductive Outcome :=
| Threw (e : JsError)
| Returned (sent : list (Channel * Message)).

Definition deliveries (o : Outcome) : list (Channel * Message) :=
  match o with
  | Threw _ => []
  | Returned sent => sent
  end.

(** ** The platform *)

(** The library calls the sources make, taken as given:
    [Buffer.from(data, 'base64').toString()] and [JSON.parse] ([None] where
    the call throws; a parsed document is read as a [Build]), and
    [moment(text).unix()] as it prints in a template literal. *)
Record Runtime := {
  Buffer_from_base64 : string -> option string;
  JSON_parse : string -> option Build;
  moment_unix : option string -> string
}.

(** [eventToBuild], identical in every version:
    [JSON.parse(Buffer.from(data, 'base64').toString())]. *)
Definition eventToBuild (rt : Runtime) (data : string) : Completion Build :=
  match Buffer_from_base64 rt data with
  | None => Throw TypeError
  | Some text =>
      match JSON_parse rt text with
      | None => Throw SyntaxError
      | Some build => Normal build
      end
  end.

(** Reading an identifier that no scope declares. *)
Definition undeclared {A : Type} (name : string) : Completion A := Throw ReferenceError.

(** ** index.js, third document: the complete version *)
Module Complete.

Record StatusCode := { sc_color : option string; sc_text : option string }.

Definition statusCode (c t : string) : StatusCode :=
  {| sc_color := Some c; sc_text := Some t |}.

(** The own properties of the [statusCodes] object literal. *)
Definition statusCodes : gmap string StatusCode :=
  list_to_map [
    ("CANCELLED", statusCode "#fbbc05" "Build cancelled");
    ("FAILURE", statusCode "#ea4335" "Build failed");
    ("INTERNAL_ERROR", statusCode "#ea4335" "Internal error encountered during build");
    ("QUEUED", statusCode "#fbbc05" "New build queued");
    ("SUCCESS", statusCode "#34a853" "Build successfully completed");
    ("TIMEOUT", statusCode "#ea4335" "Build timed out");
    ("WORKING", statusCode "#34a853" "New build in progress");
    ("STATUS_UNKNOWN", statusCode "#444444" "Unknown build status")
  ].

(** [statusCodes] is an object literal, so a key that is not an own
    property is looked up on [Object.prototype]; the values found there
    (functions, and the prototype itself under [__proto__]) have neither a
    [text] nor a [color] property. *)
Definition Object_prototype : list string :=
  [ "constructor"; "__defineGetter__"; "__defineSetter__"; "hasOwnProperty";
    "__lookupGetter__"; "__lookupSetter__"; "isPrototypeOf";
    "propertyIsEnumerable"; "toString"; "valueOf"; "__proto__";
    "toLocaleString" ].

(** [statusCodes[key]] *)
Definition statusCodes_get (key : string) : option StatusCode :=
  match statusCodes !! key with
  | Some entry => Some entry
  | None =>
      if includes Object_prototype key
      then Some {| sc_color := None; sc_text := None |}
      else None
  end.

Module Markdown.
Definition markdown (text : string) : Mrkdwn :=
  {| mrkdwn_text := text; verbatim := false |}.
Definition field (key value : string) : Mrkdwn :=
  markdown (key +:+ nl +:+ "*" +:+ value +:+ "*").
Definition link (href : option string) (text : string) : string :=
  if negb (text =? "")
  then "<" +:+ str href +:+ "|" +:+ text +:+ ">"
  else "<" +:+ str href +:+ ">".
Definition code (text : string) : string := "`" +:+ text +:+ "`".
Definition timestamp (rt : Runtime) (text : option string) : string :=
  "<!date^" +:+ moment_unix rt text +:+ "^{date_short_pretty} {time_secs}|" +:+ str text +:+ ">".
End Markdown.

Definition createSlackMessage (build : Build) : Completion Message :=
  let* statusMsg_text :=
    member (statusCodes_get (status build))
           (fun entry => js_or_else (sc_text entry) (status build)) in
  let* statusMsg_color :=
    member (statusCodes_get (status build))
           (fun entry => js_or_else (sc_color entry) "#444444") in
  let logUrl := logUrl build in
  let substitutions := substitutions build in
  let tags := default [] (tags build) in
  let tags := List.filter (fun x => negb (startsWith "trigger-" x)) tags in
  let isScheduler := includes tags "schedule" in
  let repoName := member_or_empty substitutions (fun s => s !! "REPO_NAME") in
  let branchName := member_or_empty substitutions (fun s => s !! "BRANCH_NAME") in
  let commitSha :=
    js_or (member_or_empty substitutions (fun s => s !! "COMMIT_SHA"))
          (member_or_empty substitutions (fun s => s !! "REVISION_ID")) in
  let '(type, orgId, tags) :=
    if isScheduler then
      let orgId := join ", " (List.filter (fun x => negb (x =? "schedule")) tags) in
      ("Schedule", Some orgId,
       List.filter (fun x => negb (x =? "schedule") && negb (x =? orgId)) tags)
    else ("Build", None, tags) in
  let repoSection :=
    if truthy (js_or (js_or repoName branchName) commitSha) then
      [ DividerBlock;
        ContextBlock [Markdown.field "Branch" (js_or_else branchName "—")];
        ContextBlock [Markdown.field "Commit" (js_or_else commitSha "—")];
        ContextBlock [Markdown.field "Repo" (js_or_else repoName "—")] ]
    else [] in
  Normal {|
    text := Some (statusMsg_text +:+ ": " +:+ type +:+ " for "
                  +:+ str (js_or (js_or orgId branchName) (build_id build)));
    color := Some statusMsg_color;
    blocks :=
      [ ContextBlock
          [Markdown.markdown (Markdown.link logUrl "Click here to view logs...")];
        ContextBlock
          [ Markdown.markdown ("Type: *" +:+ type +:+ "*");
            Markdown.markdown ("Status: *" +:+ status build +:+ "*") ] ]
      ++ (if truthy orgId then
            [ DividerBlock;
              ContextBlock
                [Markdown.markdown ("Organization ID" +:+ nl +:+ "`" +:+ str orgId +:+ "`")] ]
          else [])
      ++ repoSection
      ++ (if Nat.ltb 0 (length tags) then
            [ DividerBlock;
              ContextBlock
                [Markdown.field "Tags" (join nl (map (fun x => "`" +:+ x +:+ "`") tags))] ]
          else [])
  |}.

(** The module-level configuration, after the environment has been read:
    the failure webhook URL as found in the environment and the three
    lists ([split] and upper-casing already applied). *)
Record Config := {
  SLACK_WEBHOOK_URL_FAILURE : option string;
  failureStatuses : list string;
  notifyStatuses : list string;
  ignoreTags : list string
}.

(** [webhooks.failure] is an [IncomingWebhook] or [null]. *)
Definition webhooks_failure (cfg : Config) : bool :=
  truthy (SLACK_WEBHOOK_URL_FAILURE cfg).

(** The lists used when the environment variables are unset. *)
Definition defaultConfig (failureUrl : option string) : Config := {|
  SLACK_WEBHOOK_URL_FAILURE := failureUrl;
  failureStatuses := ["FAILURE"; "INTERNAL_ERROR"; "TIMEOUT"];
  notifyStatuses := ["SUCCESS"; "FAILURE"; "INTERNAL_ERROR"; "TIMEOUT"; "CANCELLED"];
  ignoreTags := ["schedule"]
|}.

(** The handler from the formatter call on (the part of [subscribeSlack]
    that follows the decoding and the debug output). *)
Definition notify (cfg : Config) (build : Build) : Outcome :=
  match createSlackMessage build with
  | Throw e => Threw e
  | Normal message =>
      let tags := tags build in
      let status := status build in
      if negb (includes (notifyStatuses cfg) status) then Returned []
      else
        let xTags := List.filter (fun v => includes (ignoreTags cfg) v) (default [] tags) in
        if Nat.ltb 0 (length xTags) && (status =? "SUCCESS") then Returned []
        else
          Returned
            ((if webhooks_failure cfg && includes (failureStatuses cfg) status
              then [(failure, message)] else [])
             ++ [(general, message)])
  end.

Definition subscribeSlack (rt : Runtime) (cfg : Config) (data : string) : Outcome :=
  match eventToBuild rt data with
  | Throw e => Threw e
  | Normal build => notify cfg build
  end.

(** The policy of the specification (section 4.2), written after its four
    steps; [subscribeSlack] is compared with it below. *)
Definition shouldNotify (build : Build) (cfg : Config) : bool * bool :=
  if bool_decide (status build ∉ notifyStatuses cfg) then (false, false)
  else if bool_decide ((list_to_set (default [] (tags build)) ∩ list_to_set (ignoreTags cfg)
                        : gset string) ≠ ∅)
          && bool_decide (status build = "SUCCESS")
  then (false, false)
  else
    let send := true in
    (send,
     send && webhooks_failure cfg && bool_decide (status build ∈ failureStatuses cfg)).

End Complete.


(** ** The version that merges [repoSource] with the substitutions *)
Module Fallback.

(** What the formatter knows about the source once its destructuring and
    fallback assignments are done (the first statements of
    [createSlackMessage]). *)
Record SourceInfo := {
  si_repoName : option string;
  si_branchName : option string;
  si_projectId : option string;
  si_commitSha : option string;
  si_tagName : option string
}.

Definition sourceInfo (build : Build) : SourceInfo :=
  let substitutions := substitutions build in
  let repoSource := member_or_empty (source build) repoSource in
  let resolvedRepoSource := member_or_empty (sourceProvenance build) resolvedRepoSource in
  let projectId := member_or_empty repoSource projectId in
  let tagName := member_or_empty resolvedRepoSource tagName in
  let repoName :=
    js_or (member_or_empty repoSource repoName)
          (member_or_empty substitutions (fun s => s !! "REPO_NAME")) in
  let branchName :=
    js_or (member_or_empty repoSource branchName)
          (member_or_empty substitutions (fun s => s !! "BRANCH_NAME")) in
  let commitSha :=
    js_or (js_or (member_or_empty resolvedRepoSource commitSha)
                 (member_or_empty substitutions (fun s => s !! "COMMIT_SHA")))
          (member_or_empty substitutions (fun s => s !! "REVISION_ID")) in
  {| si_repoName := repoName; si_branchName := branchName; si_projectId := projectId;
     si_commitSha := commitSha; si_tagName := tagName |}.

Definition mrkdwn (text : string) : Mrkdwn := {| mrkdwn_text := text; verbatim := false |}.

Definition mrkdwnField (key value : string) : Mrkdwn :=
  mrkdwn ("*" +:+ key +:+ ":*" +:+ nl +:+ value +:+ nl).

Definition mrkdwnLink (href : option string) (text : string) : string :=
  if negb (text =? "")
  then "<" +:+ str href +:+ "|" +:+ text +:+ ">"
  else "<" +:+ str href +:+ ">".

Definition mrkdwnInlineCode (text : option string) : string := "`" +:+ str text +:+ "`".

Definition mrkdwnTimestamp (rt : Runtime) (text : option string) : string :=
  "<!date^" +:+ moment_unix rt text +:+ "^{date_short_pretty} {time_secs}|" +:+ str text +:+ ">".

Definition createSlackMessage (rt : Runtime) (build : Build) : Completion Message :=
  let info := sourceInfo build in
  let repoName := si_repoName info in
  let branchName := si_branchName info in
  let projectId := si_projectId info in
  let commitSha := si_commitSha info in
  let tagName := si_tagName info in
  let hasRepoInfo := truthy projectId && truthy repoName && truthy commitSha in
  let commitUrl :=
    if hasRepoInfo
    then Some ("https://source.cloud.google.com/" +:+ str projectId +:+ "/" +:+ str repoName
               +:+ "/+/" +:+ str commitSha)
    else None in
  let* shortSha :=
    if hasRepoInfo then member commitSha (fun s => Some (substring 0 7 s)) else Normal None in
  let commitLink :=
    if hasRepoInfo then mrkdwnLink commitUrl (mrkdwnInlineCode shortSha) else "n/a" in
  Normal {|
    text := Some (status build +:+ ": " +:+ str (js_or branchName (build_id build)));
    color := None;
    blocks :=
      [ SectionText (mrkdwn (mrkdwnLink (logUrl build) "*Build Logs*"));
        SectionFields
          [ mrkdwnField "Status" (status build);
            mrkdwnField "Repo" (js_or_else repoName "n/a");
            mrkdwnField "Branch" (js_or_else branchName "n/a");
            mrkdwnField "Images" (join nl (default [] (images build)));
            mrkdwnField "Commit" commitLink;
            mrkdwnField "Tag" (js_or_else tagName "n/a");
            mrkdwnField "Start" (mrkdwnTimestamp rt (startTime build));
            mrkdwnField "Finish" (mrkdwnTimestamp rt (finishTime build)) ] ]
  |}.

(** The 'Commit' field of a rendered message: the fifth field of its
    second block. *)
Definition commitField (m : Message) : option Mrkdwn :=
  match blocks m with
  | [_; SectionFields fields] => fields !! 4%nat
  | _ => None
  end.

Definition repoField (m : Message) : option Mrkdwn :=
  match blocks m with
  | [_; SectionFields fields] => fields !! 1%nat
  | _ => None
  end.

Definition branchField (m : Message) : option Mrkdwn :=
  match blocks m with
  | [_; SectionFields fields] => fields !! 2%nat
  | _ => None
  end.

End Fallback.

(** ** index.js, first document: the 'Repo' field reads [repo] *)
Module RepoGuarded.

Definition mrkdwn (text : string) : Mrkdwn := {| mrkdwn_text := text; verbatim := false |}.

Definition mrkdwnField (key value : string) : Mrkdwn :=
  mrkdwn ("*" +:+ key +:+ ":*" +:+ nl +:+ value +:+ nl).

Definition mrkdwnLink (href : option string) (text : string) : string :=
  if negb (text =? "")
  then "<" +:+ str href +:+ "|" +:+ text +:+ ">"
  else "<" +:+ str href +:+ ">".

Definition mrkdwnInlineCode (text : option string) : string := "`" +:+ str text +:+ "`".

Definition mrkdwnTimestamp (rt : Runtime) (text : option string) : string :=
  "<!date^" +:+ moment_unix rt text +:+ "^{date_short_pretty} {time_secs}|" +:+ str text +:+ ">".

Definition createSlackMessage (rt : Runtime) (build : Build) : Completion Message :=
  let* build_source_repoSource := member (source build) repoSource in
  let repoName := member_or_empty build_source_repoSource repoName in
  let branchName := member_or_empty build_source_repoSource branchName in
  let projectId := member_or_empty build_source_repoSource projectId in
  let* resolved := member (sourceProvenance build) resolvedRepoSource in
  let commitSha := member_or_empty resolved commitSha in
  let tagName := member_or_empty resolved tagName in
  let commitUrl :=
    if bool_decide (is_Some build_source_repoSource)
    then Some ("https://source.cloud.google.com/" +:+ str projectId +:+ "/" +:+ str repoName
               +:+ "/+/" +:+ str commitSha)
    else None in
  let* shortSha :=
    if bool_decide (is_Some build_source_repoSource)
    then member commitSha (fun s => Some (substring 0 7 s))
    else Normal None in
  let commitLink :=
    if truthy commitUrl then mrkdwnLink commitUrl (mrkdwnInlineCode shortSha) else "n/a" in
  let message_text := status build +:+ ": " +:+ str (js_or branchName (build_id build)) in
  let block0 := SectionText (mrkdwn (mrkdwnLink (logUrl build) "Build Logs")) in
  let field_Status := mrkdwnField "Status" (status build) in
  let* repo := undeclared "repo" in
  let field_Repo := mrkdwnField "Repo" (js_or_else repo "n/a") in
  let field_Branch := mrkdwnField "Branch" (js_or_else branchName "n/a") in
  let* images_joined := member (images build) (join nl) in
  Normal {|
    text := Some message_text;
    color := None;
    blocks :=
      [ block0;
        SectionFields
          [ field_Status; field_Repo; field_Branch;
            mrkdwnField "Images" images_joined;
            mrkdwnField "Commit" commitLink;
            mrkdwnField "Tag" (js_or_else tagName "n/a");
            mrkdwnField "Start" (mrkdwnTimestamp rt (startTime build));
            mrkdwnField "Finish" (mrkdwnTimestamp rt (finishTime build)) ] ]
  |}.

Definition subscribeSlack (rt : Runtime) (data : string) : Outcome :=
  match eventToBuild rt data with
  | Throw e => Threw e
  | Normal build =>
      let build_status := status build in
      let status := ["SUCCESS"; "FAILURE"; "INTERNAL_ERROR"; "TIMEOUT"; "CANCELLED"] in
      if negb (includes status build_status) then Returned []
      else
        match createSlackMessage rt build with
        | Throw e => Threw e
        | Normal message => Returned [(general, message)]
        end
  end.

End RepoGuarded.

(** ** index.js, second document: the same 'Repo' field, no guards *)
Module RepoPlain.

Definition mrkdwn (text : string) : Mrkdwn := {| mrkdwn_text := text; verbatim := false |}.

Definition mrkdwnField (key value : string) : Mrkdwn :=
  mrkdwn ("*" +:+ key +:+ ":*" +:+ nl +:+ value +:+ nl).

Definition timestamp (rt : Runtime) (text : option string) : string :=
  "<!date^" +:+ moment_unix rt text +:+ "^{date_short_pretty} {time_secs}|" +:+ str text +:+ ">".

Definition createSlackMessage (rt : Runtime) (build : Build) : Completion Message :=
  let* build_source_repoSource := member (source build) repoSource in
  let* repoName := member build_source_repoSource repoName in
  let* branchName := member build_source_repoSource branchName in
  let* projectId := member build_source_repoSource projectId in
  let* resolved := member (sourceProvenance build) resolvedRepoSource in
  let* commitSha := member resolved commitSha in
  let* tagName := member resolved tagName in
  let commitUrl :=
    "https://source.cloud.google.com/" +:+ str projectId +:+ "/" +:+ str repoName
    +:+ "/+/" +:+ str commitSha in
  let* shortSha := member commitSha (substring 0 7) in
  let message_text := status build +:+ ": " +:+ str branchName in
  let block0 := SectionText (mrkdwn ("*<" +:+ str (logUrl build) +:+ "|Build Logs>*" +:+ nl)) in
  let field_Status := mrkdwnField "Status" (status build) in
  let* repo := undeclared "repo" in
  let field_Repo := mrkdwnField "Repo" (str repo) in
  let field_Branch := mrkdwnField "Branch" (str branchName) in
  let* images_joined := member (images build) (join nl) in
  Normal {|
    text := Some message_text;
    color := None;
    blocks :=
      [ block0;
        SectionFields
          [ field_Status; field_Repo; field_Branch;
            mrkdwnField "Images" images_joined;
            mrkdwn ("*Commit:*" +:+ nl +:+ "<" +:+ commitUrl +:+ "|`" +:+ shortSha +:+ "`>" +:+ nl);
            mrkdwnField "Tag" (js_or_else tagName "n/a");
            mrkdwnField "Start" (timestamp rt (startTime build));
            mrkdwnField "Finish" (timestamp rt (finishTime build)) ] ]
  |}.

Definition subscribeSlack (rt : Runtime) (data : string) : Outcome :=
  match eventToBuild rt data with
  | Throw e => Threw e
  | Normal build =>
      let build_status := status build in
      let status := ["SUCCESS"; "FAILURE"; "INTERNAL_ERROR"; "TIMEOUT"; "CANCELLED"] in
      if negb (includes status build_status) then Returned []
      else
        match createSlackMessage rt build with
        | Throw e => Threw e
        | Normal message => Returned [(general, message)]
        end
  end.

End RepoPlain.

(** ** The first version *)
Module Original.

Definition mrkdwn (text : string) (verbatim : bool) : Mrkdwn :=
  {| mrkdwn_text := text; verbatim := verbatim |}.

Definition timestamp (rt : Runtime) (text : option string) : string :=
  "<!date^" +:+ moment_unix rt text +:+ "^{date_short_pretty} {time_secs}|" +:+ str text +:+ ">".

Definition createSlackMessage (rt : Runtime) (build : Build) : Completion Message :=
  let* build_source_repoSource := member (source build) repoSource in
  let* repoName := member build_source_repoSource repoName in
  let* branchName := member build_source_repoSource branchName in
  let* projectId := member build_source_repoSource projectId in
  let* resolved := member (sourceProvenance build) resolvedRepoSource in
  let* commitSha := member resolved commitSha in
  let* tagName := member resolved tagName in
  let commitUrl :=
    "https://source.cloud.google.com/" +:+ str projectId +:+ "/" +:+ str repoName
    +:+ "/+/" +:+ str commitSha in
  let* shortSha := member commitSha (substring 0 7) in
  let block0 :=
    SectionText (mrkdwn ("*<" +:+ str (logUrl build) +:+ "|Build Logs>*" +:+ nl) false) in
  let field_Status := mrkdwn ("*Status:*" +:+ nl +:+ status build +:+ nl) false in
  let field_Repo := mrkdwn ("*Repo:*" +:+ nl +:+ str repoName +:+ nl) false in
  let field_Branch := mrkdwn ("*Branch:*" +:+ nl +:+ str branchName +:+ nl) false in
  let* images_joined := member (images build) (join nl) in
  Normal {|
    text := None;
    color := None;
    blocks :=
      [ block0;
        SectionFields
          [ field_Status; field_Repo; field_Branch;
            mrkdwn ("*Images:*" +:+ nl +:+ images_joined +:+ nl) true;
            mrkdwn ("*Commit:*" +:+ nl +:+ "<" +:+ commitUrl +:+ "|`" +:+ shortSha +:+ "`>" +:+ nl)
                   false;
            mrkdwn ("*Tag:*" +:+ nl +:+ str tagName +:+ nl) false;
            mrkdwn ("*Start:*" +:+ nl +:+ timestamp rt (startTime build) +:+ nl) false;
            mrkdwn ("*Finish:*" +:+ nl +:+ timestamp rt (finishTime build) +:+ nl) false ] ]
  |}.

End Original.

(** ** Reading the environment (index.js, third document, and the merging
       version) *)

(** [s.split(',')] for a one-character separator: the pieces between the
    separators, empty pieces included; the empty string gives one empty
    piece. *)
Fixpoint split (sep : ascii) (s : string) : list string :=
  match s with
  | EmptyString => [""]
  | String c s' =>
      if Ascii.eqb c sep then "" :: split sep s'
      else match split sep s' with
           | piece :: pieces => String c piece :: pieces
           | [] => [String c ""]
           end
  end.

(** [x.toUpperCase()] on ASCII text: the letters a-z become A-Z and every
    other character stays.  (Text outside ASCII is not what the status
    lists hold; the properties that use this function assume ASCII.) *)
Definition toUpperCase_char (c : ascii) : ascii :=
  let n := nat_of_ascii c in
  if Nat.leb 97 n && Nat.leb n 122 then ascii_of_nat (n - 32) else c.

Fixpoint toUpperCase (s : string) : string :=
  match s with
  | EmptyString => EmptyString
  | String c s' => String (toUpperCase_char c) (toUpperCase s')
  end.

Module Startup.

(** [process.env], as far as the module reads it. *)
Record Env := {
  SLACK_WEBHOOK_URL : option string;
  SLACK_WEBHOOK_URL_FAILURE : option string;
  SLACK_FAILURE_STATUSES : option string;
  SLACK_NOTIFY_STATUSES : option string;
  SLACK_IGNORE_TAGS : option string
}.

Definition failureStatuses (env : Env) : list string :=
  let statuses := SLACK_FAILURE_STATUSES env in
  if truthy statuses then map toUpperCase (split "," (str statuses))
  else ["FAILURE"; "INTERNAL_ERROR"; "TIMEOUT"].

Definition notifyStatuses (env : Env) : list string :=
  let statuses := SLACK_NOTIFY_STATUSES env in
  if truthy statuses then map toUpperCase (split "," (str statuses))
  else ["SUCCESS"; "FAILURE"; "INTERNAL_ERROR"; "TIMEOUT"; "CANCELLED"].

Definition ignoreTags (env : Env) : list string :=
  let tags := SLACK_IGNORE_TAGS env in
  if truthy tags then split "," (str tags)
  else ["schedule"].

(** Evaluating the module of the complete version: it throws an [Error]
    with the given message, or leaves the configuration the handler reads. *)
Definition moduleInit (env : Env) : string + Complete.Config :=
  if negb (truthy (SLACK_WEBHOOK_URL env))
  then inl "Missing required SLACK_WEBHOOK_URL environment variable."
  else inr {|
    Complete.SLACK_WEBHOOK_URL_FAILURE := SLACK_WEBHOOK_URL_FAILURE env;
    Complete.failureStatuses := failureStatuses env;
    Complete.notifyStatuses := notifyStatuses env;
    Complete.ignoreTags := ignoreTags env
  |}.

End Startup.

(** ** The handler of the merging version *)
Module FallbackHandler.

(** [webhook] is an [IncomingWebhook] or [null]. *)
Definition webhook (env : Startup.Env) : bool := truthy (Startup.SLACK_WEBHOOK_URL env).

Definition subscribeSlack (rt : Runtime) (env : Startup.Env) (data : string) : Outcome :=
  match eventToBuild rt data with
  | Throw e => Threw e
  | Normal build =>
      match Fallback.createSlackMessage rt build with
      | Throw e => Threw e
      | Normal message =>
          let tags := tags build in
          let status := status build in
          if negb (includes (Startup.notifyStatuses env) status) then Returned []
          else
            let xTags :=
              List.filter (fun v => includes (Startup.ignoreTags env) v) (default [] tags) in
            if Nat.ltb 0 (length xTags) && (status =? "SUCCESS") then Returned []
            else if webhook env then Returned [(general, message)]
            else Returned []
      end
  end.

End FallbackHandler.

(** ** The handler of the first version *)
Module OriginalHandler.

Definition subscribeSlack (rt : Runtime) (data : string) : Outcome :=
  match eventToBuild rt data with
  | Throw e => Threw e
  | Normal build =>
      let build_status := status build in
      let status := ["SUCCESS"; "FAILURE"; "INTERNAL_ERROR"; "TIMEOUT"; "CANCELLED"] in
      if negb (includes status build_status) then Returned []
      else
        match Original.createSlackMessage rt build with
        | Throw e => Threw e
        | Normal message => Returned [(general, message)]
        end
  end.

End OriginalHandler.

(** ** Sample inputs *)

(** A build that carries a status and nothing else. *)
Definition bareBuild (st : string) : Build := {|
  build_id := None; status := st; logUrl := None; startTime := None;
  finishTime := None; images := None; tags := None; substitutions := None;
  source := None; sourceProvenance := None |}.

(** [build] with its status replaced. *)
Definition withStatus (st : string) (build : Build) : Build := {|
  build_id := build_id build; status := st; logUrl := logUrl build;
  startTime := startTime build; finishTime := finishTime build; images := images build;
  tags := tags build; substitutions := substitutions build; source := source build;
  sourceProvenance := sourceProvenance build |}.

(** A platform whose decoder hands every payload to a parser that yields
    [build] on the payload "ok" and rejects everything else. *)
Definition sampleRuntime (build : Build) : Runtime := {|
  Buffer_from_base64 := Some;
  JSON_parse := fun text => if text =? "ok" then Some build else None;
  moment_unix := fun _ => "0"
|}.

(** A build with an ignored tag, used in the examples below. *)
Definition scheduledBuild (st : string) : Build := {|
  build_id := Some "b-1"; status := st; logUrl := Some "https://x/log"; startTime := None;
  finishTime := None; images := Some []; tags := Some ["schedule"; "team-x"];
  substitutions := None; source := None; sourceProvenance := None |}.

(** A configuration that notifies on success only. *)
Definition successOnlyConfig : Complete.Config := {|
  Complete.SLACK_WEBHOOK_URL_FAILURE := None;
  Complete.failureStatuses := ["FAILURE"; "INTERNAL_ERROR"; "TIMEOUT"];
  Complete.notifyStatuses := ["SUCCESS"];
  Complete.ignoreTags := ["schedule"]
|}.

(** The message rendered for the failed scheduled build of the examples. *)
Definition failedScheduledMessage : Message := {|
  text := Some "Build failed: Schedule for team-x";
  color := Some "#ea4335";
  blocks :=
    [ ContextBlock [Complete.Markdown.markdown "<https://x/log|Click here to view logs...>"];
      ContextBlock [ Complete.Markdown.markdown "Type: *Schedule*";
                     Complete.Markdown.markdown "Status: *FAILURE*" ];
      DividerBlock;
      ContextBlock [Complete.Markdown.markdown ("Organization ID" +:+ nl +:+ "`team-x`")] ]
|}.

(** A tag-triggered build: Cloud Build fills the substitutions that do not
    apply with the empty string. *)
Definition tagTriggeredBuild : Build := {|
  build_id := Some "b-2"; status := "SUCCESS"; logUrl := Some "https://x/log";
  startTime := Some "2024-01-01T00:00:00Z"; finishTime := Some "2024-01-01T00:10:00Z";
  images := Some []; tags := Some [];
  substitutions := Some (list_to_map [("REPO_NAME", "svc"); ("BRANCH_NAME", "");
                                      ("TAG_NAME", "v1"); ("COMMIT_SHA", "abcdef1234567")]);
  source := None; sourceProvenance := None |}.

(** A build whose repository is known but whose commit substitutions are
    empty strings. *)
Definition emptyCommitBuild : Build := {|
  build_id := Some "b-3"; status := "SUCCESS"; logUrl := Some "https://x/log";
  startTime := None; finishTime := None; images := Some []; tags := Some [];
  substitutions := Some (list_to_map [("COMMIT_SHA", ""); ("REVISION_ID", "")]);
  source := Some {| repoSource := Some {| projectId := Some "proj"; repoName := Some "svc";
                                          branchName := Some "main" |} |};
  sourceProvenance := None |}.

(** A build with a source and a provenance object but neither a repository
    descriptor nor a resolved one (a build from a storage archive). *)
Definition storageBuild : Build := {|
  build_id := Some "b-4"; status := "SUCCESS"; logUrl := Some "https://x/log";
  startTime := Some "2024-01-01T00:00:00Z"; finishTime := Some "2024-01-01T00:10:00Z";
  images := Some ["gcr.io/p/img"]; tags := None; substitutions := None;
  source := Some {| repoSource := None |};
  sourceProvenance := Some {| resolvedRepoSource := None |} |}.

(** ** Notions used to state the properties *)

(** The fields the chains start from. *)
Definition repoSourceOf (b : Build) : option RepoSource :=
  member_or_empty (source b) repoSource.
Definition resolvedRepoSourceOf (b : Build) : option ResolvedRepoSource :=
  member_or_empty (sourceProvenance b) resolvedRepoSource.
Definition substitution (b : Build) (key : string) : option string :=
  member_or_empty (substitutions b) (fun s => s !! key).

(** The chain as the specification writes it, [a ?? b ?? ...]: the first
    value that is present. *)
Fixpoint firstPresent (l : list (option string)) : option string :=
  match l with
  | [] => None
  | Some s :: _ => Some s
  | None :: l' => firstPresent l'
  end.

(** The first value that is present and not the empty string. *)
Fixpoint firstNonEmpty (l : list (option string)) : option string :=
  match l with
  | [] => None
  | o :: l' => if truthy o then o else firstNonEmpty l'
  end.

(** The values the commit link is built from. *)
Definition linkProjectId (b : Build) : option string :=
  firstNonEmpty [member_or_empty (repoSourceOf b) projectId].
Definition linkRepoName (b : Build) : option string :=
  firstNonEmpty [member_or_empty (repoSourceOf b) repoName; substitution b "REPO_NAME"].
Definition linkCommitSha (b : Build) : option string :=
  firstNonEmpty [member_or_empty (resolvedRepoSourceOf b) commitSha;
                 substitution b "COMMIT_SHA"; substitution b "REVISION_ID"].

(** The characters of a string. *)
Fixpoint chars (s : string) : list ascii :=
  match s with
  | EmptyString => []
  | String c s' => c :: chars s'
  end.

(** ASCII text, and the lower-case ASCII letters. *)
Definition isASCII (s : string) : Prop :=
  Forall (fun c => nat_of_ascii c < 128) (chars s).
Definition isLower (c : ascii) : bool :=
  Nat.leb 97 (nat_of_ascii c) && Nat.leb (nat_of_ascii c) 122.

(** An environment that sets the webhook URL and nothing else. *)
Definition urlOnlyEnv : Startup.Env := {|
  Startup.SLACK_WEBHOOK_URL := Some "https://hooks/g";
  Startup.SLACK_WEBHOOK_URL_FAILURE := None;
  Startup.SLACK_FAILURE_STATUSES := None;
  Startup.SLACK_NOTIFY_STATUSES := None;
  Startup.SLACK_IGNORE_TAGS := None
|}.

(** An environment with lists written in lower case and with spaces. *)
Definition lowerCaseEnv : Startup.Env := {|
  Startup.SLACK_WEBHOOK_URL := Some "https://hooks/g";
  Startup.SLACK_WEBHOOK_URL_FAILURE := Some "https://hooks/f";
  Startup.SLACK_FAILURE_STATUSES := Some "failure,timeout";
  Startup.SLACK_NOTIFY_STATUSES := Some "success,failure,timeout";
  Startup.SLACK_IGNORE_TAGS := Some "schedule, nightly,"
|}.

(** [env] with another SLACK_NOTIFY_STATUSES. *)
Definition withNotifyStatuses (v : option string) (env : Startup.Env) : Startup.Env := {|
  Startup.SLACK_WEBHOOK_URL := Startup.SLACK_WEBHOOK_URL env;
  Startup.SLACK_WEBHOOK_URL_FAILURE := Startup.SLACK_WEBHOOK_URL_FAILURE env;
  Startup.SLACK_FAILURE_STATUSES := Startup.SLACK_FAILURE_STATUSES env;
  Startup.SLACK_NOTIFY_STATUSES := v;
  Startup.SLACK_IGNORE_TAGS := Startup.SLACK_IGNORE_TAGS env
|}.

(** The scheduled build of the examples with every field the complete
    formatter does not read filled in differently. *)
Definition scheduledBuildWithSource (st : string) : Build := {|
  build_id := Some "b-1"; status := st; logUrl := Some "https://x/log";
  startTime := Some "2024-01-01T00:00:00Z"; finishTime := Some "2024-01-01T00:10:00Z";
  images := Some ["gcr.io/p/img"]; tags := Some ["schedule"; "team-x"];
  substitutions := None;
  source := Some {| repoSource := Some {| projectId := Some "proj"; repoName := Some "svc";
                                          branchName := Some "main" |} |};
  sourceProvenance :=
    Some {| resolvedRepoSource := Some {| commitSha := Some "abcdef1234567";
                                          tagName := Some "v1" |} |} |}.

(** The four colors of the status table. *)
Definition palette : list string := ["#fbbc05"; "#ea4335"; "#34a853"; "#444444"].

(** The texts of the fields of a message of the first versions (its second
    block), and one of these fields. *)
Definition fieldTexts (m : Message) : list string :=
  match blocks m with
  | [_; SectionFields fields] => map mrkdwn_text fields
  | _ => []
  end.

(** A build in which every repository field is filled in. *)
Definition fullBuild : Build := {|
  build_id := Some "b-7"; status := "SUCCESS"; logUrl := Some "https://x/log";
  startTime := Some "2024-01-01T00:00:00Z"; finishTime := Some "2024-01-01T00:10:00Z";
  images := Some ["gcr.io/p/img"]; tags := Some ["nightly"];
  substitutions := Some (list_to_map [("REPO_NAME", "other"); ("BRANCH_NAME", "dev")]);
  source := Some {| repoSource := Some {| projectId := Some "proj"; repoName := Some "svc";
                                          branchName := Some "main" |} |};
  sourceProvenance :=
    Some {| resolvedRepoSource := Some {| commitSha := Some "abcdef1234567";
                                          tagName := Some "v1" |} |} |}.

(** The message the merging version renders for the tag-triggered build. *)
Definition tagTriggeredMessage : Message :=
  Eval vm_compute in
    match Fallback.createSlackMessage (sampleRuntime tagTriggeredBuild) tagTriggeredBuild with
    | Normal m => m
    | Throw _ => {| text := None; color := None; blocks := [] |}
    end.

(** An ordinary build on a branch, and the message the complete version
    renders for it. *)
Definition branchBuild : Build := {|
  build_id := Some "b-8"; status := "SUCCESS"; logUrl := Some "https://x/log";
  startTime := None; finishTime := None; images := Some []; tags := Some ["nightly"];
  substitutions := Some (list_to_map [("REPO_NAME", "svc"); ("BRANCH_NAME", "main");
                                      ("COMMIT_SHA", "abcdef1234567")]);
  source := None; sourceProvenance := None |}.

Definition branchMessage : Message :=
  Eval vm_compute in
    match Complete.createSlackMessage branchBuild with
    | Normal m => m
    | Throw _ => {| text := None; color := None; blocks := [] |}
    end.

(** * Properties *)

(** ** Truthiness and string helpers *)

Lemma truthy_Some (o : option string) :
  truthy o = true <-> exists s, o = Some s /\ s ≠ "".
Proof.
  destruct o as [s|]; simpl.
  - rewrite negb_true_iff, String.eqb_neq. split.
    + intros H. exists s. auto.
    + intros (s' & [= <-] & H). exact H.
  - split; [discriminate | intros (s & H & _); discriminate].
Qed.

Lemma includes_true (l : list string) (v : string) : includes l v = true <-> v ∈ l.
Proof. unfold includes. apply bool_decide_eq_true. Qed.

(** ** Worked scenarios *)

(** A build whose only tags are a trigger tag and "nightly". *)
Example tag_block_keeps_untriggered_tags :
  exists m,
    Complete.createSlackMessage
      {| build_id := Some "b-5"; status := "SUCCESS"; logUrl := Some "https://x/log";
         startTime := None; finishTime := None; images := Some [];
         tags := Some ["trigger-abc"; "nightly"]; substitutions := None;
         source := None; sourceProvenance := None |} = Normal m
    /\ last (blocks m) = Some (ContextBlock [Complete.Markdown.field "Tags" "`nightly`"]).
Proof. eexists. split; reflexivity. Qed.

Example tag_block_omitted_for_trigger_tags_only :
  exists m,
    Complete.createSlackMessage
      {| build_id := Some "b-6"; status := "SUCCESS"; logUrl := Some "https://x/log";
         startTime := None; finishTime := None; images := Some [];
         tags := Some ["trigger-abc"]; substitutions := None;
         source := None; sourceProvenance := None |} = Normal m
    /\ length (blocks m) = 2.
Proof. eexists. split; reflexivity. Qed.

Example scheduled_success_is_suppressed :
  Complete.notify (Complete.defaultConfig None) (scheduledBuild "SUCCESS") = Returned [].
Proof. reflexivity. Qed.

Example scheduled_failure_is_sent :
  Complete.notify (Complete.defaultConfig None) (scheduledBuild "FAILURE")
  = Returned [(general, failedScheduledMessage)].
Proof. reflexivity. Qed.

Example inherited_key_is_no_table_entry :
  exists m,
    Complete.createSlackMessage (bareBuild "constructor") = Normal m
    /\ text m = Some "constructor: Build for undefined"
    /\ color m = Some "#444444".
Proof. eexists. repeat split; reflexivity. Qed.

Example tag_triggered_summary :
  exists m,
    Fallback.createSlackMessage (sampleRuntime tagTriggeredBuild) tagTriggeredBuild = Normal m
    /\ text m = Some "SUCCESS: b-2"
    /\ Fallback.commitField m = Some (Fallback.mrkdwnField "Commit" "n/a").
Proof. eexists. repeat split; reflexivity. Qed.

(** The first version needs [source] and [sourceProvenance] to be there. *)
Lemma original_createSlackMessage_needs_source (rt : Runtime) (b : Build) :
  source b = None \/ sourceProvenance b = None ->
  Original.createSlackMessage rt b = Throw TypeError.
Proof.
  intros H. unfold Original.createSlackMessage.
  destruct (source b) as [[[rs|]]|]; simpl; try reflexivity.
  destruct H as [H|H]; [discriminate|]. rewrite H. reflexivity.
Qed.

(** ** The complete version: where the formatter is defined *)

Lemma complete_createSlackMessage_throws (b : Build) :
  Complete.statusCodes_get (status b) = None ->
  Complete.createSlackMessage b = Throw TypeError.
Proof. intros H. unfold Complete.createSlackMessage. rewrite H. reflexivity. Qed.

Lemma complete_createSlackMessage_returns (b : Build) :
  is_Some (Complete.statusCodes_get (status b)) ->
  exists m, Complete.createSlackMessage b = Normal m.
Proof.
  intros [entry H]. unfold Complete.createSlackMessage. rewrite H. simpl.
  destruct (includes _ "schedule"); eexists; reflexivity.
Qed.

Lemma complete_createSlackMessage_TypeError_only (b : Build) (e : JsError) :
  Complete.createSlackMessage b = Throw e ->
  e = TypeError /\ Complete.statusCodes_get (status b) = None.
Proof.
  intros H. destruct (Complete.statusCodes_get (status b)) as [entry|] eqn:E.
  - destruct (complete_createSlackMessage_returns b) as [m Hm]; [rewrite E; eauto|].
    congruence.
  - rewrite (complete_createSlackMessage_throws b E) in H. split; congruence.
Qed.

(** C1. The formatter of the complete version is not total: on a build whose
    status is "BOGUS" (every optional field absent) it throws a TypeError
    instead of returning a message, and in general it throws exactly on the
    builds whose status has no entry in [statusCodes] (own or inherited). *)
Theorem C1_formatter_throws_without_status_entry :
  Complete.createSlackMessage (bareBuild "BOGUS") = Throw TypeError
  /\ forall b : Build,
       (exists e, Complete.createSlackMessage b = Throw e)
       <-> Complete.statusCodes_get (status b) = None.
Proof.
  split; [reflexivity|]. intros b. split.
  - intros [e H]. apply complete_createSlackMessage_TypeError_only in H. tauto.
  - intros H. exists TypeError. apply complete_createSlackMessage_throws. exact H.
Qed.

(** C2. On a build whose status is "BOGUS" the formatter of the complete
    version throws a TypeError: it renders neither "Unknown build status" nor
    the color #444444.  The table's fallback entry is only reached by the
    literal status "STATUS_UNKNOWN". *)
Theorem C2_bogus_status_throws :
  forall b : Build,
    Complete.createSlackMessage (withStatus "BOGUS" b) = Throw TypeError
    /\ exists m rest,
         Complete.createSlackMessage (withStatus "STATUS_UNKNOWN" b) = Normal m
         /\ color m = Some "#444444"
         /\ text m = Some ("Unknown build status" +:+ rest).
Proof.
  intros b. split; [reflexivity|].
  unfold Complete.createSlackMessage. simpl.
  destruct (includes _ "schedule"); do 2 eexists; simpl; (split; [reflexivity|]);
    split; reflexivity.
Qed.

(** ** The complete version: the handler against the policy of the
       specification *)

Lemma eqb_bool_decide (s t : string) : (s =? t) = bool_decide (s = t).
Proof.
  destruct (String.eqb_spec s t) as [H|H].
  - symmetry. apply bool_decide_eq_true. exact H.
  - symmetry. apply bool_decide_eq_false. exact H.
Qed.

(** The code's test on the filtered tag list is the specification's test on
    the intersection. *)
Lemma xTags_intersection (ts ig : list string) :
  Nat.ltb 0 (length (List.filter (fun v => includes ig v) ts))
  = bool_decide ((list_to_set ts ∩ list_to_set ig : gset string) ≠ ∅).
Proof.
  apply Bool.eq_iff_eq_true. rewrite bool_decide_eq_true, Nat.ltb_lt. split.
  - intros Hlen.
    destruct (List.filter (fun v => includes ig v) ts) as [|x xs] eqn:E; [simpl in Hlen; lia|].
    assert (Hin : In x (List.filter (fun v => includes ig v) ts)) by (rewrite E; left; reflexivity).
    apply List.filter_In in Hin as [Hx Hig].
    apply includes_true in Hig. apply list_elem_of_In in Hx.
    intros Hempty.
    assert (x ∈ (list_to_set ts ∩ list_to_set ig : gset string)) as Hmem by set_solver.
    rewrite Hempty in Hmem. set_solver.
  - intros Hne. apply set_choose_L in Hne as [x Hx].
    apply elem_of_intersection in Hx as [Hts Hig].
    rewrite elem_of_list_to_set in Hts. rewrite elem_of_list_to_set in Hig.
    assert (Hin : In x (List.filter (fun v => includes ig v) ts)).
    { apply List.filter_In. split; [apply list_elem_of_In; exact Hts | apply includes_true; exact Hig]. }
    destruct (List.filter (fun v => includes ig v) ts); [destruct Hin | simpl; lia].
Qed.

(** Once the formatter has returned [m], the handler sends [m] to the
    channels that [shouldNotify] selects, failure channel first. *)
Lemma notify_refines_shouldNotify (cfg : Complete.Config) (b : Build) (m : Message) :
  Complete.createSlackMessage b = Normal m ->
  Complete.notify cfg b
  = Returned ((if snd (Complete.shouldNotify b cfg) then [(failure, m)] else [])
              ++ (if fst (Complete.shouldNotify b cfg) then [(general, m)] else [])).
Proof.
  intros Hm. unfold Complete.notify, Complete.shouldNotify. rewrite Hm.
  rewrite bool_decide_not. unfold includes at 1.
  destruct (bool_decide (status b ∈ Complete.notifyStatuses cfg)); simpl; [|reflexivity].
  rewrite xTags_intersection, eqb_bool_decide.
  destruct (bool_decide (_ ≠ ∅) && bool_decide (status b = "SUCCESS")); simpl; [reflexivity|].
  unfold includes. reflexivity.
Qed.

(** When the formatter throws, so does the handler, whatever the policy. *)
Lemma notify_formatter_throws (cfg : Complete.Config) (b : Build) (e : JsError) :
  Complete.createSlackMessage b = Throw e -> Complete.notify cfg b = Threw e.
Proof. intros H. unfold Complete.notify. rewrite H. reflexivity. Qed.

Lemma subscribeSlack_decoded (rt : Runtime) (cfg : Complete.Config) (data : string) (b : Build) :
  eventToBuild rt data = Normal b ->
  Complete.subscribeSlack rt cfg data = Complete.notify cfg b.
Proof. intros H. unfold Complete.subscribeSlack. rewrite H. reflexivity. Qed.

(** Nothing is ever delivered for a build the policy rejects. *)
Lemma notify_rejected (cfg : Complete.Config) (b : Build) :
  fst (Complete.shouldNotify b cfg) = false -> deliveries (Complete.notify cfg b) = [].
Proof.
  intros Hsend.
  assert (Hsnd : snd (Complete.shouldNotify b cfg) = false).
  { revert Hsend. unfold Complete.shouldNotify.
    repeat (case_match; simpl); congruence. }
  destruct (Complete.createSlackMessage b) as [m|e] eqn:E.
  - rewrite (notify_refines_shouldNotify cfg b m E), Hsend, Hsnd. reflexivity.
  - rewrite (notify_formatter_throws cfg b e E). reflexivity.
Qed.

(** C3, as stated, fails: with a notify-status set that leaves FAILURE out,
    a failed build carrying an ignored tag passes neither the policy nor the
    handler, so send is false and nothing is delivered. *)
Lemma C3_counterexample :
  (list_to_set (default [] (tags (scheduledBuild "SUCCESS")))
     ∩ list_to_set (Complete.ignoreTags successOnlyConfig) : gset string) ≠ ∅
  /\ fst (Complete.shouldNotify (withStatus "FAILURE" (scheduledBuild "SUCCESS")) successOnlyConfig)
     = false
  /\ Complete.notify successOnlyConfig (withStatus "FAILURE" (scheduledBuild "SUCCESS"))
     = Returned [].
Proof.
  split; [|split; reflexivity].
  intros H. assert ("schedule" ∈ (∅ : gset string)) as Hin; [|set_solver].
  rewrite <- H. simpl. set_solver.
Qed.

(** C3 (amended). When the tags of a build (none, if absent) meet the
    configured ignore-tags and its status is SUCCESS, [shouldNotify] is
    [(false, false)] and the handler returns without delivering anything;
    for the build with the same tags and status FAILURE, send is true, and
    the general channel receives the message, provided FAILURE is in the
    configured notify-status set. *)
Theorem C3_ignored_tags_suppress_success_only :
  forall (cfg : Complete.Config) (b : Build),
    (list_to_set (default [] (tags b)) ∩ list_to_set (Complete.ignoreTags cfg) : gset string) ≠ ∅ ->
    status b = "SUCCESS" ->
    (Complete.shouldNotify b cfg = (false, false) /\ Complete.notify cfg b = Returned [])
    /\ ("FAILURE" ∈ Complete.notifyStatuses cfg ->
        fst (Complete.shouldNotify (withStatus "FAILURE" b) cfg) = true
        /\ exists m,
             Complete.createSlackMessage (withStatus "FAILURE" b) = Normal m
             /\ (general, m) ∈ deliveries (Complete.notify cfg (withStatus "FAILURE" b))).
Proof.
  intros cfg b Htags Hst.
  assert (Hpol : Complete.shouldNotify b cfg = (false, false)).
  { unfold Complete.shouldNotify. case_bool_decide; [reflexivity|].
    rewrite (bool_decide_eq_true_2 _ Htags), (bool_decide_eq_true_2 _ Hst). reflexivity. }
  split.
  - split; [exact Hpol|].
    destruct (complete_createSlackMessage_returns b) as [m Hm].
    { rewrite Hst. vm_compute. eauto. }
    rewrite (notify_refines_shouldNotify cfg b m Hm), Hpol. reflexivity.
  - intros Hfail.
    assert (Hsend : fst (Complete.shouldNotify (withStatus "FAILURE" b) cfg) = true).
    { unfold Complete.shouldNotify. simpl.
      rewrite bool_decide_eq_false_2 by (intros Hn; exact (Hn Hfail)).
      rewrite andb_false_r. reflexivity. }
    split; [exact Hsend|].
    destruct (complete_createSlackMessage_returns (withStatus "FAILURE" b)) as [m Hm].
    { vm_compute. eauto. }
    exists m. split; [exact Hm|].
    rewrite (notify_refines_shouldNotify cfg _ m Hm), Hsend. simpl.
    apply elem_of_app. right. apply list_elem_of_singleton. reflexivity.
Qed.

Lemma C3_witness :
  (Complete.shouldNotify (scheduledBuild "SUCCESS") (Complete.defaultConfig None) = (false, false)
   /\ Complete.notify (Complete.defaultConfig None) (scheduledBuild "SUCCESS") = Returned [])
  /\ ("FAILURE" ∈ Complete.notifyStatuses (Complete.defaultConfig None) ->
      fst (Complete.shouldNotify (withStatus "FAILURE" (scheduledBuild "SUCCESS"))
             (Complete.defaultConfig None)) = true
      /\ exists m,
           Complete.createSlackMessage (withStatus "FAILURE" (scheduledBuild "SUCCESS")) = Normal m
           /\ (general, m)
              ∈ deliveries (Complete.notify (Complete.defaultConfig None)
                              (withStatus "FAILURE" (scheduledBuild "SUCCESS")))).
Proof.
  apply (C3_ignored_tags_suppress_success_only (Complete.defaultConfig None)
           (scheduledBuild "SUCCESS")).
  - apply (bool_decide_eq_true_1 _). vm_compute. reflexivity.
  - reflexivity.
Defined.

(** C4. A build whose status is not in the configured notify-status set is
    rejected by the policy, and the handler delivers nothing to either
    channel. *)
Theorem C4_status_outside_notify_set :
  forall (rt : Runtime) (cfg : Complete.Config) (data : string) (b : Build),
    eventToBuild rt data = Normal b ->
    status b ∉ Complete.notifyStatuses cfg ->
    Complete.shouldNotify b cfg = (false, false)
    /\ deliveries (Complete.subscribeSlack rt cfg data) = [].
Proof.
  intros rt cfg data b Hdec Hst.
  assert (Hpol : Complete.shouldNotify b cfg = (false, false)).
  { unfold Complete.shouldNotify. rewrite (bool_decide_eq_true_2 _ Hst). reflexivity. }
  split; [exact Hpol|].
  rewrite (subscribeSlack_decoded rt cfg data b Hdec).
  apply notify_rejected. rewrite Hpol. reflexivity.
Qed.

Lemma C4_witness :
  Complete.shouldNotify (bareBuild "WORKING") (Complete.defaultConfig (Some "https://hooks/f"))
  = (false, false)
  /\ deliveries (Complete.subscribeSlack (sampleRuntime (bareBuild "WORKING"))
                   (Complete.defaultConfig (Some "https://hooks/f")) "ok") = [].
Proof.
  apply (C4_status_outside_notify_set (sampleRuntime (bareBuild "WORKING"))
           (Complete.defaultConfig (Some "https://hooks/f")) "ok" (bareBuild "WORKING")).
  - reflexivity.
  - apply (bool_decide_eq_false_1 _). vm_compute. reflexivity.
Defined.

(** C5. For a build that gets past both filters (the formatter, which runs
    first, has returned the message [m]), the failure channel receives [m]
    exactly when the failure webhook is configured and the status is in the
    configured failure-status set, and the general channel receives [m] in
    every case, after the failure channel. *)
Theorem C5_failure_channel_in_addition :
  forall (rt : Runtime) (cfg : Complete.Config) (data : string) (b : Build) (m : Message),
    eventToBuild rt data = Normal b ->
    Complete.createSlackMessage b = Normal m ->
    fst (Complete.shouldNotify b cfg) = true ->
    let sent := deliveries (Complete.subscribeSlack rt cfg data) in
    (forall m', (failure, m') ∈ sent <->
       m' = m /\ Complete.webhooks_failure cfg = true /\ status b ∈ Complete.failureStatuses cfg)
    /\ (forall m', (general, m') ∈ sent <-> m' = m)
    /\ sent = ((if Complete.webhooks_failure cfg
                   && bool_decide (status b ∈ Complete.failureStatuses cfg)
                then [(failure, m)] else []) ++ [(general, m)])%list.
Proof.
  intros rt cfg data b m Hdec Hm Hsend sent.
  assert (Hsnd : snd (Complete.shouldNotify b cfg)
                 = Complete.webhooks_failure cfg
                   && bool_decide (status b ∈ Complete.failureStatuses cfg)).
  { revert Hsend. unfold Complete.shouldNotify.
    repeat (case_match; simpl); congruence. }
  assert (Hsent : sent = ((if Complete.webhooks_failure cfg
                              && bool_decide (status b ∈ Complete.failureStatuses cfg)
                           then [(failure, m)] else []) ++ [(general, m)])%list).
  { unfold sent. rewrite (subscribeSlack_decoded rt cfg data b Hdec).
    rewrite (notify_refines_shouldNotify cfg b m Hm), Hsend, Hsnd. reflexivity. }
  split; [|split; [|exact Hsent]].
  - intros m'. rewrite Hsent.
    destruct (Complete.webhooks_failure cfg) eqn:Hw; simpl.
    + case_bool_decide as Hf; simpl.
      * rewrite elem_of_cons, list_elem_of_singleton. split.
        -- intros [[= ->]|[=]]. auto.
        -- intros (-> & _ & _). left. reflexivity.
      * rewrite list_elem_of_singleton. split; [intros [=] | intros (_ & _ & H); contradiction].
    + rewrite list_elem_of_singleton. split; [intros [=] | intros (_ & [=] & _)].
  - intros m'. rewrite Hsent.
    destruct (Complete.webhooks_failure cfg && _); simpl.
    + rewrite elem_of_cons, list_elem_of_singleton. split.
      * intros [[=]|[= ->]]. reflexivity.
      * intros ->. right. reflexivity.
    + rewrite list_elem_of_singleton. split; [intros [= ->]; reflexivity | intros ->; reflexivity].
Qed.

Lemma C5_witness :
  deliveries (Complete.subscribeSlack (sampleRuntime (scheduledBuild "FAILURE"))
                (Complete.defaultConfig (Some "https://hooks/f")) "ok")
  = [(failure, failedScheduledMessage); (general, failedScheduledMessage)].
Proof.
  apply (C5_failure_channel_in_addition (sampleRuntime (scheduledBuild "FAILURE"))
           (Complete.defaultConfig (Some "https://hooks/f")) "ok"
           (scheduledBuild "FAILURE") failedScheduledMessage);
    reflexivity.
Defined.

(** C10. In the complete version the formatter runs on every decoded build
    before either filter is consulted: whenever it throws, the invocation
    throws the same error, whatever the configuration, and in particular
    for a status that has no entry in the status table, which the default
    policy would have filtered out. *)
Theorem C10_formatter_runs_before_filters :
  forall (rt : Runtime) (cfg : Complete.Config) (data : string) (b : Build),
    eventToBuild rt data = Normal b ->
    (forall e, Complete.createSlackMessage b = Throw e ->
               Complete.subscribeSlack rt cfg data = Threw e)
    /\ (Complete.statusCodes_get (status b) = None ->
        Complete.subscribeSlack rt cfg data = Threw TypeError).
Proof.
  intros rt cfg data b Hdec.
  rewrite (subscribeSlack_decoded rt cfg data b Hdec). split.
  - intros e He. apply notify_formatter_throws. exact He.
  - intros Hnone. apply notify_formatter_throws.
    apply complete_createSlackMessage_throws. exact Hnone.
Qed.

Lemma C10_witness :
  Complete.shouldNotify (bareBuild "BOGUS") (Complete.defaultConfig None) = (false, false)
  /\ Complete.subscribeSlack (sampleRuntime (bareBuild "BOGUS")) (Complete.defaultConfig None) "ok"
     = Threw TypeError.
Proof.
  split; [reflexivity|].
  apply (C10_formatter_runs_before_filters (sampleRuntime (bareBuild "BOGUS"))
           (Complete.defaultConfig None) "ok" (bareBuild "BOGUS")); reflexivity.
Defined.

(** ** The decoder *)

(** C8. [eventToBuild] decodes the payload, parses the text and returns the
    parsed document as it is; it throws exactly when the base64 decoding or
    the JSON parser rejects its input, and then the handler throws the same
    error without producing a build or sending anything. *)
Theorem C8_decoder_failure :
  forall (rt : Runtime) (data : string),
    ((exists e, eventToBuild rt data = Throw e)
     <-> (Buffer_from_base64 rt data = None
          \/ exists text, Buffer_from_base64 rt data = Some text /\ JSON_parse rt text = None))
    /\ (forall b, eventToBuild rt data = Normal b
                  <-> exists text, Buffer_from_base64 rt data = Some text
                                   /\ JSON_parse rt text = Some b)
    /\ (forall e cfg, eventToBuild rt data = Throw e ->
                      Complete.subscribeSlack rt cfg data = Threw e
                      /\ deliveries (Complete.subscribeSlack rt cfg data) = []
                      /\ RepoGuarded.subscribeSlack rt data = Threw e
                      /\ RepoPlain.subscribeSlack rt data = Threw e).
Proof.
  intros rt data. unfold eventToBuild. split; [|split].
  - destruct (Buffer_from_base64 rt data) as [text|].
    + destruct (JSON_parse rt text) as [b|] eqn:Hp; split.
      * intros [e [=]].
      * intros [[=]|(text' & [= <-] & Hp')]. congruence.
      * intros _. right. exists text. auto.
      * intros _. exists SyntaxError. reflexivity.
    + split; [intros _; left; reflexivity | intros _; exists TypeError; reflexivity].
  - intros b. destruct (Buffer_from_base64 rt data) as [text|].
    + destruct (JSON_parse rt text) as [b'|] eqn:Hp; split.
      * intros [= <-]. exists text. auto.
      * intros (text' & [= <-] & Hp'). congruence.
      * intros [=].
      * intros (text' & [= <-] & Hp'). congruence.
    + split; [intros [=] | intros (text & [=] & _)].
  - intros e cfg He.
    unfold Complete.subscribeSlack, RepoGuarded.subscribeSlack, RepoPlain.subscribeSlack,
      eventToBuild.
    rewrite He. auto.
Qed.

(** ** The merging version: fallback chains and the commit link *)

Lemma js_or_else_chain2 (a b : option string) (d : string) :
  js_or_else (js_or a b) d = default d (firstNonEmpty [a; b]).
Proof.
  unfold js_or. simpl. destruct a as [s|]; simpl.
  - destruct (s =? "") eqn:E; simpl.
    + destruct b as [t|]; simpl; [destruct (t =? ""); reflexivity | reflexivity].
    + rewrite E. reflexivity.
  - destruct b as [t|]; simpl; [destruct (t =? ""); reflexivity | reflexivity].
Qed.

Lemma truthy_chain3 (a b c : option string) :
  firstNonEmpty [js_or (js_or a b) c] = firstNonEmpty [a; b; c].
Proof.
  unfold js_or. simpl.
  destruct (truthy a) eqn:Ea; simpl; [rewrite !Ea; reflexivity|].
  destruct (truthy b) eqn:Eb; simpl; [rewrite !Eb; reflexivity|].
  destruct (truthy c) eqn:Ec; reflexivity.
Qed.

Lemma truthy_firstNonEmpty (o : option string) :
  truthy o = match firstNonEmpty [o] with Some _ => true | None => false end.
Proof. simpl. destruct (truthy o) eqn:E; [|reflexivity]. destruct o; [reflexivity|discriminate]. Qed.

Lemma firstNonEmpty_str (o : option string) (s : string) :
  firstNonEmpty [o] = Some s -> o = Some s.
Proof. simpl. destruct (truthy o); congruence. Qed.

(** The formatter of the merging version always returns. *)
Lemma fallback_createSlackMessage_returns (rt : Runtime) (b : Build) :
  exists m, Fallback.createSlackMessage rt b = Normal m.
Proof.
  unfold Fallback.createSlackMessage.
  destruct (truthy (Fallback.si_projectId _) && truthy (Fallback.si_repoName _)
            && truthy (Fallback.si_commitSha _)) eqn:E.
  - apply andb_true_iff in E as [_ E]. apply truthy_Some in E as (s & -> & _).
    simpl. eexists. reflexivity.
  - simpl. eexists. reflexivity.
Qed.

(** C6, as stated, fails: for a tag-triggered build, whose BRANCH_NAME
    substitution is present and empty, the chain of the claim yields the
    empty string, while the formatter renders the branch as 'n/a'. *)
Lemma C6_counterexample :
  firstPresent [member_or_empty (repoSourceOf tagTriggeredBuild) branchName;
                substitution tagTriggeredBuild "BRANCH_NAME"] = Some ""
  /\ exists m,
       Fallback.createSlackMessage (sampleRuntime tagTriggeredBuild) tagTriggeredBuild = Normal m
       /\ Fallback.branchField m = Some (Fallback.mrkdwnField "Branch" "n/a")
       /\ Fallback.branchField m
          ≠ Some (Fallback.mrkdwnField "Branch"
                    (default "n/a"
                       (firstPresent [member_or_empty (repoSourceOf tagTriggeredBuild) branchName;
                                      substitution tagTriggeredBuild "BRANCH_NAME"]))).
Proof.
  split; [reflexivity|]. eexists. split; [reflexivity|]. split; [reflexivity|].
  vm_compute. discriminate.
Qed.

(** C6 (amended). The merging formatter always returns, and it takes
    repoName from [repoSource.repoName] when that is present and not empty,
    otherwise from the REPO_NAME substitution when that is present and not
    empty, and renders 'n/a' otherwise; branchName likewise from
    [repoSource.branchName] and BRANCH_NAME; commitSha is the first present
    and non-empty value among [resolvedRepoSource.commitSha], COMMIT_SHA and
    REVISION_ID, and counts as absent when there is none. *)
Theorem C6_fallback_chains :
  forall (rt : Runtime) (b : Build),
  exists m,
    Fallback.createSlackMessage rt b = Normal m
    /\ Fallback.repoField m
       = Some (Fallback.mrkdwnField "Repo"
                 (default "n/a" (firstNonEmpty [member_or_empty (repoSourceOf b) repoName;
                                                substitution b "REPO_NAME"])))
    /\ Fallback.branchField m
       = Some (Fallback.mrkdwnField "Branch"
                 (default "n/a" (firstNonEmpty [member_or_empty (repoSourceOf b) branchName;
                                                substitution b "BRANCH_NAME"])))
    /\ firstNonEmpty [Fallback.si_commitSha (Fallback.sourceInfo b)]
       = firstNonEmpty [member_or_empty (resolvedRepoSourceOf b) commitSha;
                        substitution b "COMMIT_SHA"; substitution b "REVISION_ID"].
Proof.
  intros rt b.
  assert (Hfields : forall m, Fallback.createSlackMessage rt b = Normal m ->
            Fallback.repoField m
            = Some (Fallback.mrkdwnField "Repo"
                      (js_or_else (Fallback.si_repoName (Fallback.sourceInfo b)) "n/a"))
            /\ Fallback.branchField m
               = Some (Fallback.mrkdwnField "Branch"
                         (js_or_else (Fallback.si_branchName (Fallback.sourceInfo b)) "n/a"))).
  { intros m. unfold Fallback.createSlackMessage.
    destruct (truthy (Fallback.si_projectId _) && truthy (Fallback.si_repoName _)
              && truthy (Fallback.si_commitSha _)).
    - destruct (Fallback.si_commitSha (Fallback.sourceInfo b)); simpl; [|discriminate].
      intros [= <-]. split; reflexivity.
    - simpl. intros [= <-]. split; reflexivity. }
  destruct (fallback_createSlackMessage_returns rt b) as [m Hm].
  exists m. split; [exact Hm|].
  destruct (Hfields m Hm) as [Hrepo Hbranch].
  rewrite Hrepo, Hbranch. unfold Fallback.sourceInfo. simpl Fallback.si_repoName.
  simpl Fallback.si_branchName. simpl Fallback.si_commitSha.
  rewrite !js_or_else_chain2, truthy_chain3. auto.
Qed.

(** C7, as stated, fails: with projectId and repoName known and the commit
    substitutions present but empty, all three values are present, yet the
    commit field is 'n/a', not a link. *)
Lemma C7_counterexample :
  is_Some (member_or_empty (repoSourceOf emptyCommitBuild) projectId)
  /\ is_Some (firstPresent [member_or_empty (repoSourceOf emptyCommitBuild) repoName;
                            substitution emptyCommitBuild "REPO_NAME"])
  /\ is_Some (firstPresent [member_or_empty (resolvedRepoSourceOf emptyCommitBuild) commitSha;
                            substitution emptyCommitBuild "COMMIT_SHA";
                            substitution emptyCommitBuild "REVISION_ID"])
  /\ exists m,
       Fallback.createSlackMessage (sampleRuntime emptyCommitBuild) emptyCommitBuild = Normal m
       /\ Fallback.commitField m = Some (Fallback.mrkdwnField "Commit" "n/a").
Proof.
  repeat split; try (eexists; reflexivity).
  eexists. split; reflexivity.
Qed.

(** C7 (amended). The merging formatter always returns, and its commit
    field is a link to
    https://source.cloud.google.com/{projectId}/{repoName}/+/{commitSha},
    labelled with the first 7 characters of commitSha as inline code,
    exactly when projectId, repoName and commitSha (the latter two after the
    fallback chains) are all present and not empty; in every other case the
    commit field is the literal 'n/a'. *)
Theorem C7_commit_link :
  forall (rt : Runtime) (b : Build),
  exists m,
    Fallback.createSlackMessage rt b = Normal m
    /\ Fallback.commitField m
       = Some (Fallback.mrkdwnField "Commit"
                 match linkProjectId b, linkRepoName b, linkCommitSha b with
                 | Some p, Some r, Some c =>
                     "<" +:+ ("https://source.cloud.google.com/" +:+ p +:+ "/" +:+ r
                              +:+ "/+/" +:+ c)
                     +:+ "|" +:+ ("`" +:+ substring 0 7 c +:+ "`") +:+ ">"
                 | _, _, _ => "n/a"
                 end).
Proof.
  intros rt b. unfold linkProjectId, linkRepoName, linkCommitSha.
  unfold Fallback.createSlackMessage.
  rewrite (truthy_firstNonEmpty (Fallback.si_projectId _)).
  rewrite (truthy_firstNonEmpty (Fallback.si_repoName _)).
  rewrite (truthy_firstNonEmpty (Fallback.si_commitSha _)).
  assert (Hp : Fallback.si_projectId (Fallback.sourceInfo b) = member_or_empty (repoSourceOf b) projectId)
    by reflexivity.
  assert (Hr : firstNonEmpty [Fallback.si_repoName (Fallback.sourceInfo b)]
               = firstNonEmpty [member_or_empty (repoSourceOf b) repoName;
                                substitution b "REPO_NAME"]).
  { unfold Fallback.sourceInfo. simpl Fallback.si_repoName. unfold js_or. simpl.
    destruct (truthy (member_or_empty _ repoName)) eqn:E; simpl; [rewrite E|]; reflexivity. }
  assert (Hc : firstNonEmpty [Fallback.si_commitSha (Fallback.sourceInfo b)]
               = firstNonEmpty [member_or_empty (resolvedRepoSourceOf b) commitSha;
                                substitution b "COMMIT_SHA"; substitution b "REVISION_ID"]).
  { unfold Fallback.sourceInfo. simpl Fallback.si_commitSha. apply truthy_chain3. }
  rewrite <- Hr, <- Hc, <- Hp.
  destruct (firstNonEmpty [Fallback.si_projectId (Fallback.sourceInfo b)]) as [p|] eqn:Ep;
    [apply firstNonEmpty_str in Ep; rewrite Ep|].
  2: { simpl. eexists. split; reflexivity. }
  destruct (firstNonEmpty [Fallback.si_repoName (Fallback.sourceInfo b)]) as [r|] eqn:Er;
    [apply firstNonEmpty_str in Er; rewrite Er|].
  2: { simpl. eexists. split; reflexivity. }
  destruct (firstNonEmpty [Fallback.si_commitSha (Fallback.sourceInfo b)]) as [c|] eqn:Ec;
    [apply firstNonEmpty_str in Ec; rewrite Ec|].
  2: { simpl. eexists. split; reflexivity. }
  simpl. eexists. split; reflexivity.
Qed.

(** ** The two versions whose 'Repo' field reads [repo] *)

(** C9, as stated, fails: the error is not always a ReferenceError.  On a
    build without repository descriptors the unguarded version throws a
    TypeError while destructuring, and on a build without a [source] object
    so does the guarded one; the read of [repo] is never reached. *)
Lemma C9_counterexample :
  RepoPlain.createSlackMessage (sampleRuntime storageBuild) storageBuild = Throw TypeError
  /\ RepoGuarded.createSlackMessage (sampleRuntime storageBuild) (bareBuild "SUCCESS")
     = Throw TypeError
  /\ RepoPlain.subscribeSlack (sampleRuntime storageBuild) "ok" = Threw TypeError.
Proof. repeat split; reflexivity. Qed.

(** C9 (amended). In the two versions that render the 'Repo' field from the
    variable [repo], which nothing declares, [createSlackMessage] throws on
    every build: a ReferenceError whenever evaluation gets as far as the
    'Repo' field, and a TypeError before that when a property is read from
    an absent [source], [sourceProvenance], descriptor or commit SHA.  No
    message is ever constructed, and the handlers never send one. *)
Theorem C9_repo_is_undeclared :
  forall (rt : Runtime) (b : Build),
    (RepoGuarded.createSlackMessage rt b = Throw ReferenceError
     \/ RepoGuarded.createSlackMessage rt b = Throw TypeError)
    /\ (RepoPlain.createSlackMessage rt b = Throw ReferenceError
        \/ RepoPlain.createSlackMessage rt b = Throw TypeError)
    /\ (RepoGuarded.createSlackMessage rt b = Throw ReferenceError
        <-> exists src prov,
              source b = Some src /\ sourceProvenance b = Some prov
              /\ (is_Some (repoSource src)
                  -> is_Some (member_or_empty (resolvedRepoSource prov) commitSha)))
    /\ (RepoPlain.createSlackMessage rt b = Throw ReferenceError
        <-> exists src rs prov rrs sha,
              source b = Some src /\ repoSource src = Some rs
              /\ sourceProvenance b = Some prov /\ resolvedRepoSource prov = Some rrs
              /\ commitSha rrs = Some sha)
    /\ (forall data, deliveries (RepoGuarded.subscribeSlack rt data) = []
                     /\ deliveries (RepoPlain.subscribeSlack rt data) = []).
Proof.
  intros rt b.
  assert (HG : (RepoGuarded.createSlackMessage rt b = Throw ReferenceError
                /\ exists src prov,
                     source b = Some src /\ sourceProvenance b = Some prov
                     /\ (is_Some (repoSource src)
                         -> is_Some (member_or_empty (resolvedRepoSource prov) commitSha)))
               \/ (RepoGuarded.createSlackMessage rt b = Throw TypeError
                   /\ ~ exists src prov,
                          source b = Some src /\ sourceProvenance b = Some prov
                          /\ (is_Some (repoSource src)
                              -> is_Some (member_or_empty (resolvedRepoSource prov) commitSha)))).
  { unfold RepoGuarded.createSlackMessage.
    destruct (source b) as [[rs]|] eqn:Es; simpl.
    2: { right. split; [reflexivity|]. intros (src & prov & [=] & _). }
    destruct (sourceProvenance b) as [[rrs]|] eqn:Ep; simpl.
    2: { right. split; [reflexivity|]. intros (src & prov & _ & [=] & _). }
    destruct rs as [rs|]; simpl.
    - destruct (member_or_empty rrs commitSha) as [sha|] eqn:Esha; simpl.
      + left. split; [reflexivity|]. exists {| repoSource := Some rs |}, {| resolvedRepoSource := rrs |}.
        simpl. rewrite Esha. eauto.
      + right. split; [reflexivity|]. intros (src & prov & [= <-] & [= <-] & H). simpl in H.
        rewrite Esha in H. destruct H as [x Hx]; [eauto | discriminate].
    - left. split; [reflexivity|]. exists {| repoSource := None |}, {| resolvedRepoSource := rrs |}.
      simpl. split; [reflexivity|]. split; [reflexivity|]. intros [x Hx]. discriminate. }
  assert (HP : (RepoPlain.createSlackMessage rt b = Throw ReferenceError
                /\ exists src rs prov rrs sha,
                     source b = Some src /\ repoSource src = Some rs
                     /\ sourceProvenance b = Some prov /\ resolvedRepoSource prov = Some rrs
                     /\ commitSha rrs = Some sha)
               \/ (RepoPlain.createSlackMessage rt b = Throw TypeError
                   /\ ~ exists src rs prov rrs sha,
                          source b = Some src /\ repoSource src = Some rs
                          /\ sourceProvenance b = Some prov /\ resolvedRepoSource prov = Some rrs
                          /\ commitSha rrs = Some sha)).
  { unfold RepoPlain.createSlackMessage.
    destruct (source b) as [[rs]|] eqn:Es; simpl.
    2: { right. split; [reflexivity|]. intros (src & rs & prov & rrs & sha & [=] & _). }
    destruct rs as [rs|]; simpl.
    2: { right. split; [reflexivity|].
         intros (src & rs & prov & rrs & sha & [= <-] & H & _). discriminate. }
    destruct (sourceProvenance b) as [[rrs]|] eqn:Ep; simpl.
    2: { right. split; [reflexivity|]. intros (src & rs' & prov & rrs & sha & _ & _ & [=] & _). }
    destruct rrs as [rrs|]; simpl.
    2: { right. split; [reflexivity|].
         intros (src & rs' & prov & rrs & sha & _ & _ & [= <-] & H & _). discriminate. }
    destruct (commitSha rrs) as [sha|] eqn:Esha; simpl.
    - left. split; [reflexivity|].
      exists {| repoSource := Some rs |}, rs, {| resolvedRepoSource := Some rrs |}, rrs, sha. auto.
    - right. split; [reflexivity|].
      intros (src & rs' & prov & rrs' & sha & _ & _ & [= <-] & [= <-] & H). congruence. }
  split; [destruct HG as [[H _]|[H _]]; auto|].
  split; [destruct HP as [[H _]|[H _]]; auto|].
  split; [|split].
  - destruct HG as [[H Hc]|[H Hc]]; split; auto; intros H'; [congruence | contradiction].
  - destruct HP as [[H Hc]|[H Hc]]; split; auto; intros H'; [congruence | contradiction].
  - intros data. unfold RepoGuarded.subscribeSlack, RepoPlain.subscribeSlack.
    destruct (eventToBuild rt data) as [b'|e]; [|split; reflexivity].
    assert (HG' : exists e, RepoGuarded.createSlackMessage rt b' = Throw e).
    { unfold RepoGuarded.createSlackMessage.
      destruct (source b') as [[rs]|]; simpl; [|eauto].
      destruct (sourceProvenance b') as [[rrs]|]; simpl; [|eauto].
      destruct (bool_decide (is_Some rs)); simpl; [|eauto].
      destruct (member_or_empty rrs commitSha); simpl; eauto. }
    assert (HP' : exists e, RepoPlain.createSlackMessage rt b' = Throw e).
    { unfold RepoPlain.createSlackMessage.
      destruct (source b') as [[[rs|]]|]; simpl; eauto.
      destruct (sourceProvenance b') as [[[rrs|]]|]; simpl; eauto.
      destruct (commitSha rrs); simpl; eauto. }
    destruct HG' as [e1 ->]. destruct HP' as [e2 ->].
    split; destruct (negb _); reflexivity.
Qed.

(** * Further properties of the code *)

(** ** Splitting and upper-casing the environment lists *)

Lemma split_cons (sep : ascii) (s : string) : exists piece pieces, split sep s = piece :: pieces.
Proof.
  induction s as [|c s IH]; simpl; [eauto|].
  destruct (Ascii.eqb c sep); [eauto|].
  destruct IH as (p & ps & ->). eauto.
Qed.

Lemma join_cons (sep x : string) (y : string) (l : list string) :
  join sep (x :: y :: l) = x +:+ sep +:+ join sep (y :: l).
Proof. reflexivity. Qed.

Lemma join_split (sep : ascii) (s : string) : join (String sep "") (split sep s) = s.
Proof.
  induction s as [|c s IH]; [reflexivity|]. simpl.
  destruct (Ascii.eqb_spec c sep) as [->|Hne].
  - destruct (split_cons sep s) as (p & ps & E). rewrite E in *.
    rewrite join_cons, IH. reflexivity.
  - destruct (split_cons sep s) as (p & ps & E). rewrite E in *.
    destruct ps; unfold join in *; simpl in *; rewrite <- IH; reflexivity.
Qed.

Lemma split_no_sep (sep : ascii) (s piece : string) :
  piece ∈ split sep s -> sep ∉ chars piece.
Proof.
  revert piece. induction s as [|c s IH]; simpl; intros piece Hin.
  - apply list_elem_of_singleton in Hin as ->. simpl. apply not_elem_of_nil.
  - destruct (Ascii.eqb_spec c sep) as [->|Hne].
    + apply elem_of_cons in Hin as [->|Hin]; [simpl; apply not_elem_of_nil | auto].
    + destruct (split_cons sep s) as (p & ps & E). rewrite E in *.
      apply elem_of_cons in Hin as [->|Hin].
      * simpl. intros [Hc|Hc]%elem_of_cons; [congruence|].
        apply (IH p); [left | exact Hc].
      * apply IH. right. exact Hin.
Qed.

Lemma toUpperCase_char_not_lower (c : ascii) : isLower (toUpperCase_char c) = false.
Proof.
  unfold isLower, toUpperCase_char.
  destruct (Nat.leb 97 (nat_of_ascii c) && Nat.leb (nat_of_ascii c) 122) eqn:E.
  - apply andb_true_iff in E as [H1 H2]. apply Nat.leb_le in H1, H2.
    rewrite nat_ascii_embedding by lia.
    apply andb_false_iff. left. apply Nat.leb_gt. lia.
  - exact E.
Qed.

Lemma toUpperCase_no_lower (s : string) (c : ascii) :
  c ∈ chars (toUpperCase s) -> isLower c = false.
Proof.
  induction s as [|d s IH]; simpl; intros Hin.
  - apply not_elem_of_nil in Hin. destruct Hin.
  - apply elem_of_cons in Hin as [->|Hin]; [apply toUpperCase_char_not_lower | auto].
Qed.

Lemma toUpperCase_char_comma (c : ascii) :
  Ascii.eqb (toUpperCase_char c) "," = Ascii.eqb c ",".
Proof.
  unfold toUpperCase_char.
  destruct (Nat.leb 97 (nat_of_ascii c) && Nat.leb (nat_of_ascii c) 122) eqn:E; [|reflexivity].
  apply andb_true_iff in E as [H1 H2]. apply Nat.leb_le in H1, H2.
  assert (Hcomma : nat_of_ascii "," = 44) by reflexivity.
  destruct (Ascii.eqb_spec c ",") as [->|Hne]; [lia|].
  apply Ascii.eqb_neq. intros H.
  apply (f_equal nat_of_ascii) in H. rewrite nat_ascii_embedding in H by lia.
  lia.
Qed.

Lemma toUpperCase_char_idem (c : ascii) :
  toUpperCase_char (toUpperCase_char c) = toUpperCase_char c.
Proof.
  pose proof (toUpperCase_char_not_lower c) as H. unfold isLower in H.
  unfold toUpperCase_char at 1. rewrite H. reflexivity.
Qed.

Lemma toUpperCase_idem (s : string) : toUpperCase (toUpperCase s) = toUpperCase s.
Proof. induction s as [|c s IH]; simpl; [|rewrite toUpperCase_char_idem, IH]; reflexivity. Qed.

Lemma split_toUpperCase (s : string) :
  split "," (toUpperCase s) = map toUpperCase (split "," s).
Proof.
  induction s as [|c s IH]; [reflexivity|]. simpl.
  rewrite toUpperCase_char_comma, IH.
  destruct (Ascii.eqb c ","); [reflexivity|].
  destruct (split "," s); reflexivity.
Qed.

Lemma truthy_toUpperCase (s : string) : truthy (Some (toUpperCase s)) = truthy (Some s).
Proof. destruct s; reflexivity. Qed.

(** X1. None of the three lists read from the environment can be empty: an
    unset or empty variable gives the built-in list, and any other value
    splits into at least one entry. *)
Theorem X1_environment_lists_never_empty :
  forall env : Startup.Env,
    0 < length (Startup.notifyStatuses env)
    /\ 0 < length (Startup.failureStatuses env)
    /\ 0 < length (Startup.ignoreTags env).
Proof.
  intros env.
  unfold Startup.notifyStatuses, Startup.failureStatuses, Startup.ignoreTags.
  repeat split.
  - destruct (truthy _); [|simpl; lia].
    destruct (split_cons "," (str (Startup.SLACK_NOTIFY_STATUSES env))) as (p & ps & ->).
    simpl. lia.
  - destruct (truthy _); [|simpl; lia].
    destruct (split_cons "," (str (Startup.SLACK_FAILURE_STATUSES env))) as (p & ps & ->).
    simpl. lia.
  - destruct (truthy _); [|simpl; lia].
    destruct (split_cons "," (str (Startup.SLACK_IGNORE_TAGS env))) as (p & ps & ->).
    simpl. lia.
Qed.

(** X2. A non-empty SLACK_IGNORE_TAGS is cut at its commas and at nothing
    else: no entry contains a comma, and the entries joined by commas give
    the variable back, so spaces around a tag and empty entries are kept as
    they are. *)
Theorem X2_ignore_tags_cut_at_commas_only :
  forall (env : Startup.Env) (s : string),
    Startup.SLACK_IGNORE_TAGS env = Some s ->
    s ≠ "" ->
    join "," (Startup.ignoreTags env) = s
    /\ forall t, t ∈ Startup.ignoreTags env -> ("," : ascii) ∉ chars t.
Proof.
  intros env s Hs Hne. unfold Startup.ignoreTags. rewrite Hs. simpl.
  rewrite (proj2 (String.eqb_neq s "") Hne). simpl. split.
  - apply (join_split "," s).
  - intros t Ht. eapply split_no_sep. exact Ht.
Qed.

Lemma X2_witness :
  join "," (Startup.ignoreTags lowerCaseEnv) = "schedule, nightly,"
  /\ forall t, t ∈ Startup.ignoreTags lowerCaseEnv -> ("," : ascii) ∉ chars t.
Proof.
  apply (X2_ignore_tags_cut_at_commas_only lowerCaseEnv "schedule, nightly,").
  - reflexivity.
  - discriminate.
Defined.

Lemma complete_outside_notify_set (rt : Runtime) (cfg : Complete.Config) (data : string)
      (b : Build) :
  eventToBuild rt data = Normal b ->
  status b ∉ Complete.notifyStatuses cfg ->
  deliveries (Complete.subscribeSlack rt cfg data) = [].
Proof.
  intros Hdec Hst. rewrite (subscribeSlack_decoded rt cfg data b Hdec).
  apply notify_rejected. unfold Complete.shouldNotify.
  rewrite (bool_decide_eq_true_2 _ Hst). reflexivity.
Qed.

(** X3. When SLACK_NOTIFY_STATUSES is set (ASCII text), its entries are
    upper-cased but the status of a build is compared as it comes: a build
    whose status contains a lower-case letter is never delivered. *)
Theorem X3_lower_case_status_never_notified :
  forall (rt : Runtime) (env : Startup.Env) (cfg : Complete.Config) (s data : string)
         (b : Build) (c : ascii),
    Startup.moduleInit env = inr cfg ->
    Startup.SLACK_NOTIFY_STATUSES env = Some s ->
    s ≠ "" ->
    isASCII s ->
    eventToBuild rt data = Normal b ->
    c ∈ chars (status b) ->
    isLower c = true ->
    deliveries (Complete.subscribeSlack rt cfg data) = [].
Proof.
  intros rt env cfg s data b c Hinit Hs Hne _ Hdec Hc Hlow.
  unfold Startup.moduleInit in Hinit.
  destruct (negb (truthy (Startup.SLACK_WEBHOOK_URL env))); [discriminate|].
  injection Hinit as <-.
  apply (complete_outside_notify_set rt _ data b Hdec). simpl.
  unfold Startup.notifyStatuses. rewrite Hs. simpl.
  rewrite (proj2 (String.eqb_neq s "") Hne). simpl.
  intros Hin. apply list_elem_of_fmap in Hin as (t & Ht & _).
  rewrite Ht in Hc. apply toUpperCase_no_lower in Hc. congruence.
Qed.

Lemma X3_witness :
  deliveries
    (Complete.subscribeSlack (sampleRuntime (bareBuild "success"))
       {| Complete.SLACK_WEBHOOK_URL_FAILURE := Some "https://hooks/f";
          Complete.failureStatuses := Startup.failureStatuses lowerCaseEnv;
          Complete.notifyStatuses := Startup.notifyStatuses lowerCaseEnv;
          Complete.ignoreTags := Startup.ignoreTags lowerCaseEnv |} "ok") = [].
Proof.
  apply (X3_lower_case_status_never_notified (sampleRuntime (bareBuild "success")) lowerCaseEnv
           _ "success,failure,timeout" "ok" (bareBuild "success") "s").
  - reflexivity.
  - reflexivity.
  - discriminate.
  - unfold isASCII. simpl. repeat constructor.
  - reflexivity.
  - simpl. left.
  - reflexivity.
Defined.

(** X4. Writing SLACK_NOTIFY_STATUSES in upper case changes nothing: the
    list read from an ASCII value and the list read from its upper-cased
    form are the same. *)
Theorem X4_notify_statuses_case_insensitive :
  forall (env : Startup.Env) (s : string),
    Startup.SLACK_NOTIFY_STATUSES env = Some s ->
    isASCII s ->
    Startup.notifyStatuses (withNotifyStatuses (Some (toUpperCase s)) env)
    = Startup.notifyStatuses env.
Proof.
  intros env s Hs _. unfold Startup.notifyStatuses. simpl Startup.SLACK_NOTIFY_STATUSES.
  rewrite Hs, truthy_toUpperCase. destruct (truthy (Some s)); [|reflexivity].
  simpl str. rewrite split_toUpperCase, map_map.
  apply map_ext. intros t. apply toUpperCase_idem.
Qed.

Lemma X4_witness :
  Startup.notifyStatuses (withNotifyStatuses (Some (toUpperCase "success,failure,timeout"))
                            lowerCaseEnv)
  = Startup.notifyStatuses lowerCaseEnv.
Proof.
  apply (X4_notify_statuses_case_insensitive lowerCaseEnv "success,failure,timeout").
  - reflexivity.
  - unfold isASCII. simpl. repeat constructor.
Defined.

(** ** The handler of the complete version *)

Lemma filter_includes_nonempty (ig ts : list string) :
  Nat.ltb 0 (length (List.filter (fun v => includes ig v) ts)) = true
  <-> exists t, t ∈ ts /\ t ∈ ig.
Proof.
  rewrite Nat.ltb_lt. split.
  - intros Hlen.
    destruct (List.filter (fun v => includes ig v) ts) as [|x xs] eqn:E; [simpl in Hlen; lia|].
    assert (Hin : In x (List.filter (fun v => includes ig v) ts)) by (rewrite E; left; reflexivity).
    apply List.filter_In in Hin as [Hx Hig].
    exists x. split; [apply list_elem_of_In; exact Hx | apply includes_true; exact Hig].
  - intros (t & Hts & Hig).
    assert (Hin : In t (List.filter (fun v => includes ig v) ts)).
    { apply List.filter_In. split; [apply list_elem_of_In; exact Hts | apply includes_true; exact Hig]. }
    destruct (List.filter (fun v => includes ig v) ts); [destruct Hin | simpl; lia].
Qed.

(** The outcome of the handler once the formatter has returned, in the
    code's own tests. *)
Lemma notify_returned (cfg : Complete.Config) (b : Build) (m : Message) :
  Complete.createSlackMessage b = Normal m ->
  Complete.notify cfg b
  = if negb (includes (Complete.notifyStatuses cfg) (status b)) then Returned []
    else if Nat.ltb 0 (length (List.filter (fun v => includes (Complete.ignoreTags cfg) v)
                                           (default [] (tags b))))
            && (status b =? "SUCCESS")
         then Returned []
         else Returned ((if Complete.webhooks_failure cfg
                            && includes (Complete.failureStatuses cfg) (status b)
                         then [(failure, m)] else []) ++ [(general, m)]).
Proof. intros Hm. unfold Complete.notify. rewrite Hm. reflexivity. Qed.

(** X5. Whatever the payload and the configuration, an invocation of the
    complete version sends nothing, or the formatter's message to the
    general channel alone, or that same message to the failure channel and
    then to the general channel; it never sends to the failure channel
    alone, never twice to a channel, and never two different messages. *)
Theorem X5_deliveries_have_three_shapes :
  forall (rt : Runtime) (cfg : Complete.Config) (data : string),
    deliveries (Complete.subscribeSlack rt cfg data) = []
    \/ exists b m,
         eventToBuild rt data = Normal b
         /\ Complete.createSlackMessage b = Normal m
         /\ (deliveries (Complete.subscribeSlack rt cfg data) = [(general, m)]
             \/ deliveries (Complete.subscribeSlack rt cfg data)
                = [(failure, m); (general, m)]).
Proof.
  intros rt cfg data. unfold Complete.subscribeSlack.
  destruct (eventToBuild rt data) as [b|e] eqn:Hdec; [|left; reflexivity].
  destruct (Complete.createSlackMessage b) as [m|e] eqn:Hm.
  - rewrite (notify_returned cfg b m Hm).
    destruct (negb _); [left; reflexivity|].
    destruct (_ && (status b =? "SUCCESS")); [left; reflexivity|].
    right. exists b, m. split; [reflexivity|]. split; [exact Hm|].
    destruct (_ && _); simpl; auto.
  - rewrite (notify_formatter_throws cfg b e Hm). left. reflexivity.
Qed.

(** X6. Without a failure webhook (SLACK_WEBHOOK_URL_FAILURE unset or
    empty) every delivery of the complete version goes to the general
    channel, whatever the failure-status list says. *)
Theorem X6_no_failure_webhook_no_failure_delivery :
  forall (rt : Runtime) (env : Startup.Env) (cfg : Complete.Config) (data : string),
    Startup.moduleInit env = inr cfg ->
    truthy (Startup.SLACK_WEBHOOK_URL_FAILURE env) = false ->
    Forall (fun d => fst d = general) (deliveries (Complete.subscribeSlack rt cfg data)).
Proof.
  intros rt env cfg data Hinit Hurl.
  unfold Startup.moduleInit in Hinit.
  destruct (negb (truthy (Startup.SLACK_WEBHOOK_URL env))); [discriminate|].
  injection Hinit as <-. unfold Complete.subscribeSlack.
  destruct (eventToBuild rt data) as [b|e]; [|constructor].
  destruct (Complete.createSlackMessage b) as [m'|e] eqn:Hm.
  - rewrite (notify_returned _ b m' Hm). unfold Complete.webhooks_failure. simpl.
    rewrite Hurl. simpl.
    repeat (case_match; simpl); repeat constructor.
  - rewrite (notify_formatter_throws _ b e Hm). constructor.
Qed.

Lemma X6_witness :
  Forall (fun d => fst d = general)
    (deliveries (Complete.subscribeSlack (sampleRuntime (scheduledBuild "FAILURE"))
                   (Complete.defaultConfig None) "ok")).
Proof.
  apply (X6_no_failure_webhook_no_failure_delivery (sampleRuntime (scheduledBuild "FAILURE"))
           urlOnlyEnv (Complete.defaultConfig None) "ok"); reflexivity.
Defined.

(** X7. Once the formatter has returned a message, the general channel
    receives it exactly when the status is in the notify list and the build
    is not a SUCCESS carrying one of the ignored tags; in particular a build
    without tags, or one that did not succeed, is never held back by the
    ignore list. *)
Theorem X7_general_channel_exactly_when :
  forall (rt : Runtime) (cfg : Complete.Config) (data : string) (b : Build) (m : Message),
    eventToBuild rt data = Normal b ->
    Complete.createSlackMessage b = Normal m ->
    ((general, m) ∈ deliveries (Complete.subscribeSlack rt cfg data)
     <-> status b ∈ Complete.notifyStatuses cfg
         /\ ~ (status b = "SUCCESS"
               /\ exists t, t ∈ default [] (tags b) /\ t ∈ Complete.ignoreTags cfg)).
Proof.
  intros rt cfg data b m Hdec Hm.
  rewrite (subscribeSlack_decoded rt cfg data b Hdec), (notify_returned cfg b m Hm).
  destruct (includes (Complete.notifyStatuses cfg) (status b)) eqn:Hn; simpl.
  - apply includes_true in Hn.
    destruct (Nat.ltb 0 _) eqn:Hx; simpl.
    + apply filter_includes_nonempty in Hx.
      destruct (String.eqb_spec (status b) "SUCCESS") as [Hs|Hs]; simpl.
      * split; [intros Hin; inversion Hin | intros [_ Hno]; destruct Hno; auto].
      * split; [intros _; split; [exact Hn | intros [Hs' _]; contradiction]|].
        intros _. apply elem_of_app. right. apply list_elem_of_singleton. reflexivity.
    + split.
      * intros _. split; [exact Hn|]. intros [_ Hex].
        apply filter_includes_nonempty in Hex. congruence.
      * intros _. apply elem_of_app. right. apply list_elem_of_singleton. reflexivity.
  - unfold includes in Hn. apply bool_decide_eq_false in Hn.
    split; [intros Hin; inversion Hin | intros [Hin _]; contradiction].
Qed.

Lemma X7_witness :
  (general, failedScheduledMessage)
    ∈ deliveries (Complete.subscribeSlack (sampleRuntime (scheduledBuild "FAILURE"))
                    (Complete.defaultConfig None) "ok")
  <-> status (scheduledBuild "FAILURE") ∈ Complete.notifyStatuses (Complete.defaultConfig None)
      /\ ~ (status (scheduledBuild "FAILURE") = "SUCCESS"
            /\ exists t, t ∈ default [] (tags (scheduledBuild "FAILURE"))
                         /\ t ∈ Complete.ignoreTags (Complete.defaultConfig None)).
Proof.
  apply (X7_general_channel_exactly_when (sampleRuntime (scheduledBuild "FAILURE"))
           (Complete.defaultConfig None) "ok" (scheduledBuild "FAILURE") failedScheduledMessage);
    reflexivity.
Defined.

(** ** The formatter of the complete version *)

(** X8. The complete formatter reads the id, the status, the log URL, the
    tags and the substitutions of a build and nothing else: two builds that
    agree on these five give the same message and the same outcome of the
    handler, whatever their images, timestamps, source and provenance. *)
Theorem X8_complete_formatter_reads_five_fields :
  forall (cfg : Complete.Config) (b b' : Build),
    build_id b = build_id b' ->
    status b = status b' ->
    logUrl b = logUrl b' ->
    tags b = tags b' ->
    substitutions b = substitutions b' ->
    Complete.createSlackMessage b = Complete.createSlackMessage b'
    /\ Complete.notify cfg b = Complete.notify cfg b'.
Proof.
  intros cfg b b' Hid Hst Hlog Htags Hsub.
  assert (H : Complete.createSlackMessage b = Complete.createSlackMessage b').
  { unfold Complete.createSlackMessage. rewrite Hid, Hst, Hlog, Htags, Hsub. reflexivity. }
  split; [exact H|]. unfold Complete.notify. rewrite H, Hst, Htags. reflexivity.
Qed.

Lemma X8_witness :
  Complete.createSlackMessage (scheduledBuild "FAILURE")
  = Complete.createSlackMessage (scheduledBuildWithSource "FAILURE")
  /\ Complete.notify (Complete.defaultConfig None) (scheduledBuild "FAILURE")
     = Complete.notify (Complete.defaultConfig None) (scheduledBuildWithSource "FAILURE").
Proof.
  apply (X8_complete_formatter_reads_five_fields (Complete.defaultConfig None)
           (scheduledBuild "FAILURE") (scheduledBuildWithSource "FAILURE")); reflexivity.
Defined.

(** The entries [statusCodes[key]] can yield. *)
Lemma statusCodes_get_cases (key : string) (entry : Complete.StatusCode) :
  Complete.statusCodes_get key = Some entry ->
  (exists c, Complete.sc_color entry = Some c /\ c ∈ palette /\ c ≠ ""
             /\ exists t, Complete.sc_text entry = Some t /\ t ≠ "")
  \/ (Complete.sc_color entry = None /\ Complete.sc_text entry = None).
Proof.
  unfold Complete.statusCodes_get.
  destruct (Complete.statusCodes !! key) as [e|] eqn:E.
  - intros [= <-]. left. unfold Complete.statusCodes in E.
    apply elem_of_list_to_map_2, list_elem_of_In in E. simpl in E.
    repeat (destruct E as [E|E];
            [injection E as _ <-; eexists; split; [reflexivity|]; split;
             [unfold palette; set_solver
             | split; [discriminate | eexists; split; [reflexivity | discriminate]]]|]).
    destruct E.
  - destruct (includes _ key); [|discriminate]. intros [= <-]. right. auto.
Qed.

(** X9. The color of a rendered message is always one of the four colors of
    the status table; no build makes the formatter return any other. *)
Theorem X9_color_from_palette :
  forall (b : Build) (m : Message),
    Complete.createSlackMessage b = Normal m ->
    exists c, color m = Some c /\ c ∈ palette.
Proof.
  intros b m. unfold Complete.createSlackMessage.
  destruct (Complete.statusCodes_get (status b)) as [entry|] eqn:E; [|discriminate].
  simpl. destruct (includes _ "schedule"); intros [= <-]; simpl;
    (eexists; split; [reflexivity|]);
    (destruct (statusCodes_get_cases _ _ E) as [(c & -> & Hc & Hne & _)|[-> _]]; simpl;
     [rewrite (proj2 (String.eqb_neq c "") Hne); exact Hc | unfold palette; set_solver]).
Qed.

Lemma X9_witness :
  exists c, color failedScheduledMessage = Some c /\ c ∈ palette.
Proof.
  apply (X9_color_from_palette (scheduledBuild "FAILURE") failedScheduledMessage).
  reflexivity.
Defined.

Lemma includes_filter_trigger (ts : list string) :
  includes (List.filter (fun x => negb (startsWith "trigger-" x)) ts) "schedule"
  = includes ts "schedule".
Proof.
  unfold includes. apply bool_decide_ext.
  rewrite !list_elem_of_In, List.filter_In. split; [tauto|]. intros H. split; [exact H|reflexivity].
Qed.

(** Runs the formatter on a build whose status has a table entry, in both
    the scheduled and the ordinary case. *)
Ltac run_complete_formatter b Hsched :=
  unfold Complete.createSlackMessage;
  destruct (Complete.statusCodes_get (status b)); [|discriminate];
  simpl;
  destruct (includes (List.filter (fun x => negb (startsWith "trigger-" x))
                                  (default [] (tags b))) "schedule") eqn:Hsched;
  intros [= <-]; simpl.

(** X10. Every rendered message opens with the log-link block and the
    type/status block, and the type is "Schedule" exactly when the tags of
    the build contain "schedule" (and "Build" otherwise, also when the tags
    are absent). *)
Theorem X10_header_blocks_and_type :
  forall (b : Build) (m : Message),
    Complete.createSlackMessage b = Normal m ->
    blocks m !! 0%nat
    = Some (ContextBlock
              [Complete.Markdown.markdown
                 (Complete.Markdown.link (logUrl b) "Click here to view logs...")])
    /\ blocks m !! 1%nat
       = Some (ContextBlock
                 [ Complete.Markdown.markdown
                     ("Type: *"
                      +:+ (if bool_decide ("schedule" ∈ default [] (tags b))
                           then "Schedule" else "Build")
                      +:+ "*");
                   Complete.Markdown.markdown ("Status: *" +:+ status b +:+ "*") ]).
Proof.
  intros b m.
  pose proof (includes_filter_trigger (default [] (tags b))) as Hinc. unfold includes in Hinc at 2.
  run_complete_formatter b Hsched; rewrite <- Hinc; split; reflexivity.
Qed.

Lemma X10_witness :
  blocks failedScheduledMessage !! 0%nat
  = Some (ContextBlock
            [Complete.Markdown.markdown
               (Complete.Markdown.link (logUrl (scheduledBuild "FAILURE"))
                  "Click here to view logs...")])
  /\ blocks failedScheduledMessage !! 1%nat
     = Some (ContextBlock
               [ Complete.Markdown.markdown
                   ("Type: *"
                    +:+ (if bool_decide ("schedule" ∈ default [] (tags (scheduledBuild "FAILURE")))
                         then "Schedule" else "Build")
                    +:+ "*");
                 Complete.Markdown.markdown
                   ("Status: *" +:+ status (scheduledBuild "FAILURE") +:+ "*") ]).
Proof.
  apply (X10_header_blocks_and_type (scheduledBuild "FAILURE") failedScheduledMessage).
  reflexivity.
Defined.

(** Decides the tests that guard the optional block groups. *)
Ltac split_block_groups :=
  repeat match goal with
         | |- context [if ?c then _ else _] =>
             match type of c with bool => destruct c end
         end.

(** Closes a goal [blk ∉ blocks] when [blk] differs from every listed block
    by its first characters. *)
Ltac no_such_block :=
  let Hin := fresh "Hin" in
  intros Hin; apply list_elem_of_In in Hin;
  unfold Complete.Markdown.field, Complete.Markdown.link, Complete.Markdown.markdown in Hin;
  simpl in Hin;
  repeat (destruct Hin as [Hin|Hin]; [discriminate Hin|]); destruct Hin.

(** X11. The Tags block lists only tags of the build that do not start with
    "trigger-", in a scheduled build never "schedule" itself, and in an
    ordinary build all of them; when that list is empty the message has no
    Tags block at all, otherwise the Tags block is the last block and
    shows each tag as inline code, one per line. *)
Theorem X11_tags_block :
  forall (b : Build) (m : Message),
    Complete.createSlackMessage b = Normal m ->
    exists shown : list string,
      (forall t, t ∈ shown -> t ∈ default [] (tags b) /\ startsWith "trigger-" t = false)
      /\ ("schedule" ∈ default [] (tags b) -> "schedule" ∉ shown)
      /\ ("schedule" ∉ default [] (tags b) ->
          forall t, t ∈ default [] (tags b) -> startsWith "trigger-" t = false -> t ∈ shown)
      /\ match shown with
         | [] => forall v, ContextBlock [Complete.Markdown.field "Tags" v] ∉ blocks m
         | _ :: _ =>
             last (blocks m)
             = Some (ContextBlock
                       [Complete.Markdown.field "Tags"
                          (join nl (map Complete.Markdown.code shown))])
         end.
Proof.
  intros b m.
  pose proof (includes_filter_trigger (default [] (tags b))) as Hinc. unfold includes in Hinc at 2.
  run_complete_formatter b Hsched; symmetry in Hinc.
  - apply bool_decide_eq_true in Hinc.
    match goal with
    | |- context [Nat.ltb 0 (length ?l)] => exists l; remember l as shown eqn:Eshown
    end.
    split; [|split; [|split]].
    + intros t Ht. rewrite Eshown in Ht. apply list_elem_of_In in Ht.
      apply List.filter_In in Ht as [Ht _]. apply List.filter_In in Ht as [Ht Htr].
      split; [apply list_elem_of_In; exact Ht | apply negb_true_iff; exact Htr].
    + intros _ Ht. rewrite Eshown in Ht. apply list_elem_of_In in Ht.
      apply List.filter_In in Ht as [_ Ht]. discriminate.
    + intros Hno. contradiction.
    + clear Eshown. destruct shown as [|x xs]; cbn [length Nat.ltb Nat.leb].
      * intros v. split_block_groups. all: no_such_block.
      * split_block_groups. all: reflexivity.
  - apply bool_decide_eq_false in Hinc.
    match goal with
    | |- context [Nat.ltb 0 (length ?l)] => exists l; remember l as shown eqn:Eshown
    end.
    split; [|split; [|split]].
    + intros t Ht. rewrite Eshown in Ht. apply list_elem_of_In in Ht.
      apply List.filter_In in Ht as [Ht Htr].
      split; [apply list_elem_of_In; exact Ht | apply negb_true_iff; exact Htr].
    + intros Hyes. contradiction.
    + intros _ t Ht Htr. rewrite Eshown. apply list_elem_of_In, List.filter_In.
      split; [apply list_elem_of_In; exact Ht | rewrite Htr; reflexivity].
    + clear Eshown. destruct shown as [|x xs]; cbn [length Nat.ltb Nat.leb].
      * intros v. split_block_groups. all: no_such_block.
      * split_block_groups. all: reflexivity.
Qed.

Lemma X11_witness :
  exists shown : list string,
    (forall t, t ∈ shown ->
               t ∈ default [] (tags (scheduledBuild "FAILURE")) /\ startsWith "trigger-" t = false)
    /\ ("schedule" ∈ default [] (tags (scheduledBuild "FAILURE")) -> "schedule" ∉ shown)
    /\ ("schedule" ∉ default [] (tags (scheduledBuild "FAILURE")) ->
        forall t, t ∈ default [] (tags (scheduledBuild "FAILURE")) ->
                  startsWith "trigger-" t = false -> t ∈ shown)
    /\ match shown with
       | [] => forall v, ContextBlock [Complete.Markdown.field "Tags" v]
                         ∉ blocks failedScheduledMessage
       | _ :: _ =>
           last (blocks failedScheduledMessage)
           = Some (ContextBlock
                     [Complete.Markdown.field "Tags"
                        (join nl (map Complete.Markdown.code shown))])
       end.
Proof.
  apply (X11_tags_block (scheduledBuild "FAILURE") failedScheduledMessage).
  reflexivity.
Defined.

Lemma filter_and {A : Type} (f g : A -> bool) (l : list A) :
  List.filter (fun x => f x && g x) l = List.filter g (List.filter f l).
Proof.
  induction l as [|x l IH]; [reflexivity|]. simpl.
  destruct (f x); simpl; [destruct (g x); rewrite IH; reflexivity | exact IH].
Qed.

(** X12. For a scheduled build whose tags, trigger tags and "schedule"
    aside, are the single non-empty tag [t], the message names [t] as the
    organization: the summary ends in "Schedule for t", there is an
    Organization ID block showing [t], and there is no Tags block. *)
Theorem X12_scheduled_build_with_one_organization :
  forall (b : Build) (m : Message) (ts : list string) (t : string),
    Complete.createSlackMessage b = Normal m ->
    tags b = Some ts ->
    "schedule" ∈ ts ->
    List.filter (fun x => negb (startsWith "trigger-" x) && negb (x =? "schedule")) ts = [t] ->
    t ≠ "" ->
    (exists d, text m = Some (d +:+ ": Schedule for " +:+ t))
    /\ ContextBlock [Complete.Markdown.markdown ("Organization ID" +:+ nl +:+ "`" +:+ t +:+ "`")]
       ∈ blocks m
    /\ forall v, ContextBlock [Complete.Markdown.field "Tags" v] ∉ blocks m.
Proof.
  intros b m ts t Hm Htags Hin Hone Hne.
  assert (Hsched : includes (List.filter (fun x => negb (startsWith "trigger-" x)) ts) "schedule"
                   = true).
  { rewrite includes_filter_trigger. apply includes_true. exact Hin. }
  assert (E1 : List.filter (fun x => negb (x =? "schedule"))
                 (List.filter (fun x => negb (startsWith "trigger-" x)) ts) = [t]).
  { rewrite <- filter_and. exact Hone. }
  assert (E2 : List.filter (fun x => negb (x =? "schedule") && negb (x =? t))
                 (List.filter (fun x => negb (startsWith "trigger-" x)) ts) = []).
  { rewrite filter_and, E1. simpl. rewrite String.eqb_refl. reflexivity. }
  revert Hm. unfold Complete.createSlackMessage.
  destruct (Complete.statusCodes_get (status b)) as [entry|]; [|discriminate].
  cbn [bind member]. cbv zeta. rewrite Htags.
  change (default [] (Some ts)) with ts. rewrite Hsched, E1.
  change (join ", " [t]) with t. rewrite E2.
  assert (Ht : truthy (Some t) = true).
  { apply truthy_Some. exists t. auto. }
  intros [= <-]. unfold js_or. cbn [text blocks length Nat.ltb Nat.leb].
  rewrite ?Ht, ?(proj2 (String.eqb_neq t "") Hne). cbn [str negb].
  split; [|split].
  - eexists. reflexivity.
  - apply list_elem_of_In. simpl. do 3 right. left. reflexivity.
  - intros v. split_block_groups. all: no_such_block.
Qed.

Lemma X12_witness :
  (exists d, text failedScheduledMessage = Some (d +:+ ": Schedule for " +:+ "team-x"))
  /\ ContextBlock
       [Complete.Markdown.markdown ("Organization ID" +:+ nl +:+ "`" +:+ "team-x" +:+ "`")]
     ∈ blocks failedScheduledMessage
  /\ forall v, ContextBlock [Complete.Markdown.field "Tags" v] ∉ blocks failedScheduledMessage.
Proof.
  apply (X12_scheduled_build_with_one_organization (scheduledBuild "FAILURE")
           failedScheduledMessage ["schedule"; "team-x"] "team-x").
  - reflexivity.
  - reflexivity.
  - apply (bool_decide_eq_true_1 _). vm_compute. reflexivity.
  - reflexivity.
  - discriminate.
Defined.

Lemma truthy_any4 (a b c d : option string) :
  truthy (js_or (js_or a b) (js_or c d))
  = match firstNonEmpty [a; b; c; d] with Some _ => true | None => false end.
Proof.
  unfold js_or. simpl.
  destruct (truthy a) eqn:Ea; simpl; [rewrite !Ea; destruct a; [reflexivity|discriminate]|].
  destruct (truthy b) eqn:Eb; simpl; [rewrite !Eb; destruct b; [reflexivity|discriminate]|].
  destruct (truthy c) eqn:Ec; simpl; [rewrite !Ec; destruct c; [reflexivity|discriminate]|].
  destruct (truthy d) eqn:Ed; simpl; [destruct d; [reflexivity|discriminate] | reflexivity].
Qed.

Lemma js_or_else_chain1 (a : option string) (d : string) :
  js_or_else a d = default d (firstNonEmpty [a]).
Proof. destruct a as [s|]; simpl; [destruct (s =? ""); reflexivity | reflexivity]. Qed.

(** Finds a block among the listed ones. *)
Ltac find_block :=
  apply list_elem_of_In; simpl; repeat (first [left; reflexivity | right]).

(** X13. The repository group of a message is all or nothing: when one of
    the substitutions REPO_NAME, BRANCH_NAME, COMMIT_SHA, REVISION_ID is
    present and not empty, the message has a Branch, a Commit and a Repo
    block, each showing its value or the dash when that value is missing
    (the commit is COMMIT_SHA, or REVISION_ID when that is empty); when none
    is, the message has none of the three blocks. *)
Theorem X13_repository_group_all_or_nothing :
  forall (b : Build) (m : Message),
    Complete.createSlackMessage b = Normal m ->
    match firstNonEmpty [substitution b "REPO_NAME"; substitution b "BRANCH_NAME";
                         substitution b "COMMIT_SHA"; substitution b "REVISION_ID"] with
    | Some _ =>
        ContextBlock [Complete.Markdown.field "Branch"
                        (default "—" (firstNonEmpty [substitution b "BRANCH_NAME"]))]
          ∈ blocks m
        /\ ContextBlock [Complete.Markdown.field "Commit"
                           (default "—" (firstNonEmpty [substitution b "COMMIT_SHA";
                                                        substitution b "REVISION_ID"]))]
             ∈ blocks m
        /\ ContextBlock [Complete.Markdown.field "Repo"
                           (default "—" (firstNonEmpty [substitution b "REPO_NAME"]))]
             ∈ blocks m
    | None =>
        forall v,
          (ContextBlock [Complete.Markdown.field "Branch" v] ∉ blocks m)
          /\ (ContextBlock [Complete.Markdown.field "Commit" v] ∉ blocks m)
          /\ (ContextBlock [Complete.Markdown.field "Repo" v] ∉ blocks m)
    end.
Proof.
  intros b m. unfold substitution.
  rewrite <- !js_or_else_chain1, <- js_or_else_chain2.
  pose proof (truthy_any4 (member_or_empty (substitutions b) (fun s => s !! "REPO_NAME"))
                (member_or_empty (substitutions b) (fun s => s !! "BRANCH_NAME"))
                (member_or_empty (substitutions b) (fun s => s !! "COMMIT_SHA"))
                (member_or_empty (substitutions b) (fun s => s !! "REVISION_ID"))) as Hany.
  destruct (firstNonEmpty _) as [known|];
    run_complete_formatter b Hsched; rewrite Hany.
  - split_block_groups. all: repeat split; find_block.
  - split_block_groups. all: repeat split; find_block.
  - intros v. split_block_groups. all: repeat split; no_such_block.
  - intros v. split_block_groups. all: repeat split; no_such_block.
Qed.

Lemma X13_witness :
  ContextBlock [Complete.Markdown.field "Branch" "main"] ∈ blocks branchMessage
  /\ ContextBlock [Complete.Markdown.field "Commit" "abcdef1234567"] ∈ blocks branchMessage
  /\ ContextBlock [Complete.Markdown.field "Repo" "svc"] ∈ blocks branchMessage.
Proof.
  apply (X13_repository_group_all_or_nothing branchBuild branchMessage).
  reflexivity.
Defined.

(** ** The other versions *)

(** X14. In the merging version the formatter also runs before the filters,
    but it returns on every build, so once the payload is decoded the
    handler never throws: it sends nothing, or the formatter's message once
    to the single webhook, and it can only send when SLACK_WEBHOOK_URL is
    set. *)
Theorem X14_merging_handler_never_throws :
  forall (rt : Runtime) (env : Startup.Env) (data : string) (b : Build),
    eventToBuild rt data = Normal b ->
    exists m,
      Fallback.createSlackMessage rt b = Normal m
      /\ (FallbackHandler.subscribeSlack rt env data = Returned []
          \/ (FallbackHandler.subscribeSlack rt env data = Returned [(general, m)]
              /\ truthy (Startup.SLACK_WEBHOOK_URL env) = true)).
Proof.
  intros rt env data b Hdec.
  destruct (fallback_createSlackMessage_returns rt b) as [m Hm].
  exists m. split; [exact Hm|].
  unfold FallbackHandler.subscribeSlack, FallbackHandler.webhook. rewrite Hdec, Hm.
  destruct (negb _); [left; reflexivity|].
  destruct (_ && _); [left; reflexivity|].
  destruct (truthy (Startup.SLACK_WEBHOOK_URL env)); [right; auto | left; reflexivity].
Qed.

(** X15. The two versions whose 'Repo' field reads [repo] crash on exactly
    the builds they are meant to announce: a decoded build whose status is
    one of the five listed makes the handler throw, and any other build
    makes it return without sending. *)
Theorem X15_repo_versions_throw_on_listed_statuses :
  forall (rt : Runtime) (data : string) (b : Build),
    eventToBuild rt data = Normal b ->
    if bool_decide (status b ∈ ["SUCCESS"; "FAILURE"; "INTERNAL_ERROR"; "TIMEOUT"; "CANCELLED"])
    then (exists e, RepoGuarded.subscribeSlack rt data = Threw e)
         /\ (exists e, RepoPlain.subscribeSlack rt data = Threw e)
    else RepoGuarded.subscribeSlack rt data = Returned []
         /\ RepoPlain.subscribeSlack rt data = Returned [].
Proof.
  intros rt data b Hdec.
  unfold RepoGuarded.subscribeSlack, RepoPlain.subscribeSlack. rewrite Hdec.
  unfold includes. destruct (bool_decide _); simpl; [|split; reflexivity].
  assert (HG : exists e, RepoGuarded.createSlackMessage rt b = Throw e).
  { unfold RepoGuarded.createSlackMessage.
    destruct (source b) as [[rs]|]; simpl; [|eauto].
    destruct (sourceProvenance b) as [[rrs]|]; simpl; [|eauto].
    destruct (bool_decide (is_Some rs)); simpl; [|eauto].
    destruct (member_or_empty rrs commitSha); simpl; eauto. }
  assert (HP : exists e, RepoPlain.createSlackMessage rt b = Throw e).
  { unfold RepoPlain.createSlackMessage.
    destruct (source b) as [[[rs|]]|]; simpl; eauto.
    destruct (sourceProvenance b) as [[[rrs|]]|]; simpl; eauto.
    destruct (commitSha rrs); simpl; eauto. }
  destruct HG as [e1 ->]. destruct HP as [e2 ->]. eauto.
Qed.

Lemma X15_witness :
  (exists e, RepoGuarded.subscribeSlack (sampleRuntime storageBuild) "ok" = Threw e)
  /\ (exists e, RepoPlain.subscribeSlack (sampleRuntime storageBuild) "ok" = Threw e).
Proof.
  apply (X15_repo_versions_throw_on_listed_statuses (sampleRuntime storageBuild) "ok" storageBuild).
  reflexivity.
Defined.

Lemma X14_witness :
  exists m,
    Fallback.createSlackMessage (sampleRuntime tagTriggeredBuild) tagTriggeredBuild = Normal m
    /\ (FallbackHandler.subscribeSlack (sampleRuntime tagTriggeredBuild) urlOnlyEnv "ok"
        = Returned []
        \/ (FallbackHandler.subscribeSlack (sampleRuntime tagTriggeredBuild) urlOnlyEnv "ok"
            = Returned [(general, m)]
            /\ truthy (Startup.SLACK_WEBHOOK_URL urlOnlyEnv) = true)).
Proof.
  apply (X14_merging_handler_never_throws (sampleRuntime tagTriggeredBuild) urlOnlyEnv "ok"
           tagTriggeredBuild).
  reflexivity.
Defined.

Lemma original_formatter_domain (rt : Runtime) (b : Build) :
  ((exists m, Original.createSlackMessage rt b = Normal m)
   <-> exists src rs prov rrs sha imgs,
         source b = Some src /\ repoSource src = Some rs
         /\ sourceProvenance b = Some prov /\ resolvedRepoSource prov = Some rrs
         /\ commitSha rrs = Some sha /\ images b = Some imgs)
  /\ ((exists m, Original.createSlackMessage rt b = Normal m)
      \/ Original.createSlackMessage rt b = Throw TypeError).
Proof.
  unfold Original.createSlackMessage.
  destruct (source b) as [[[rs|]]|]; simpl.
  2-3: split; [split; [intros [m [=]] | intros (? & ? & ? & ? & ? & ? & H1 & H2 & _);
                                        first [discriminate H1
                                              | injection H1 as <-; discriminate H2]]
              | right; reflexivity].
  destruct (sourceProvenance b) as [[[rrs|]]|]; simpl.
  2-3: split; [split; [intros [m [=]] | intros (? & ? & ? & ? & ? & ? & _ & _ & H1 & H2 & _);
                                        first [discriminate H1
                                              | injection H1 as <-; discriminate H2]]
              | right; reflexivity].
  destruct (commitSha rrs) as [sha|] eqn:Esha; simpl.
  2: split; [split; [intros [m [=]] | intros (? & ? & ? & ? & ? & ? & _ & _ & H1 & H2 & H3 & _);
                                      injection H1 as <-; injection H2 as <-; congruence]
            | right; reflexivity].
  destruct (images b) as [imgs|]; simpl.
  2: split; [split; [intros [m [=]] | intros (? & ? & ? & ? & ? & ? & _ & _ & _ & _ & _ & [=])]
            | right; reflexivity].
  split; [|left; eauto]. split; [|eauto].
  intros _. exists {| repoSource := Some rs |}, rs, {| resolvedRepoSource := Some rrs |}, rrs, sha, imgs.
  auto 10.
Qed.

(** X16. The formatter of the first version returns exactly on the builds
    that carry a repository descriptor, a resolved descriptor with a commit
    SHA, and an image list; on every other build it throws a TypeError. *)
Theorem X16_first_formatter_domain :
  forall (rt : Runtime) (b : Build),
    ((exists m, Original.createSlackMessage rt b = Normal m)
     <-> exists src rs prov rrs sha imgs,
           source b = Some src /\ repoSource src = Some rs
           /\ sourceProvenance b = Some prov /\ resolvedRepoSource prov = Some rrs
           /\ commitSha rrs = Some sha /\ images b = Some imgs)
    /\ ((exists m, Original.createSlackMessage rt b = Normal m)
        \/ Original.createSlackMessage rt b = Throw TypeError).
Proof. intros rt b. apply original_formatter_domain. Qed.

(** X17. The handler of the first version tests the status before it
    formats: a decoded build whose status is outside the five listed
    returns without sending and without throwing, whatever else it lacks;
    a listed one is sent when the formatter's six inputs are there and makes
    the handler throw a TypeError otherwise. *)
Theorem X17_first_handler_outcomes :
  forall (rt : Runtime) (data : string) (b : Build),
    eventToBuild rt data = Normal b ->
    if bool_decide (status b ∈ ["SUCCESS"; "FAILURE"; "INTERNAL_ERROR"; "TIMEOUT"; "CANCELLED"])
    then ((exists m, OriginalHandler.subscribeSlack rt data = Returned [(general, m)])
          <-> exists src rs prov rrs sha imgs,
                source b = Some src /\ repoSource src = Some rs
                /\ sourceProvenance b = Some prov /\ resolvedRepoSource prov = Some rrs
                /\ commitSha rrs = Some sha /\ images b = Some imgs)
         /\ ((exists m, OriginalHandler.subscribeSlack rt data = Returned [(general, m)])
             \/ OriginalHandler.subscribeSlack rt data = Threw TypeError)
    else OriginalHandler.subscribeSlack rt data = Returned [].
Proof.
  intros rt data b Hdec. unfold OriginalHandler.subscribeSlack. rewrite Hdec.
  unfold includes. destruct (bool_decide _); simpl; [|reflexivity].
  destruct (original_formatter_domain rt b) as [Hiff Hor].
  destruct (Original.createSlackMessage rt b) as [m|e] eqn:E.
  - split; [|left; eauto]. split; [intros _; apply Hiff; eauto | eauto].
  - destruct Hor as [[m [=]]|[= ->]]. split; [|right; reflexivity].
    split; [intros [m [=]] | intros H; apply Hiff in H as [m [=]]].
Qed.

Lemma X17_witness :
  OriginalHandler.subscribeSlack (sampleRuntime (bareBuild "WORKING")) "ok" = Returned [].
Proof.
  apply (X17_first_handler_outcomes (sampleRuntime (bareBuild "WORKING")) "ok"
           (bareBuild "WORKING")).
  reflexivity.
Defined.

Lemma append_assoc (s1 s2 s3 : string) : (s1 +:+ s2) +:+ s3 = s1 +:+ s2 +:+ s3.
Proof.
  induction s1 as [|c s1 IH]; [reflexivity|].
  change (String c ((s1 +:+ s2) +:+ s3) = String c (s1 +:+ s2 +:+ s3)).
  rewrite IH. reflexivity.
Qed.

(** X18. On a build whose repository descriptor, resolved descriptor and
    image list are present, with project, repository, branch, commit and
    tag all non-empty, the merging version renders the same eight field
    texts as the first version, whatever the substitutions say. *)
Theorem X18_merging_version_agrees_on_full_builds :
  forall (rt : Runtime) (b : Build) (src : Source) (rs : RepoSource) (prov : SourceProvenance)
         (rrs : ResolvedRepoSource) (imgs : list string) (p r br c t : string),
    source b = Some src -> repoSource src = Some rs ->
    sourceProvenance b = Some prov -> resolvedRepoSource prov = Some rrs ->
    images b = Some imgs ->
    projectId rs = Some p -> repoName rs = Some r -> branchName rs = Some br ->
    commitSha rrs = Some c -> tagName rrs = Some t ->
    p ≠ "" -> r ≠ "" -> br ≠ "" -> c ≠ "" -> t ≠ "" ->
    exists m0 m1,
      Original.createSlackMessage rt b = Normal m0
      /\ Fallback.createSlackMessage rt b = Normal m1
      /\ fieldTexts m1 = fieldTexts m0
      /\ length (fieldTexts m0) = 8.
Proof.
  intros rt b src rs prov rrs imgs p r br c t Hsrc Hrs Hprov Hrrs Himgs Hp Hr Hbr Hc Ht
         Hp' Hr' Hbr' Hc' Ht'.
  unfold Original.createSlackMessage, Fallback.createSlackMessage, Fallback.sourceInfo.
  rewrite Hsrc, Hprov, Himgs. simpl. rewrite Hrs, Hrrs. simpl.
  rewrite Hp, Hr, Hbr, Hc, Ht. simpl.
  destruct p as [|p0 p]; [contradiction|]. destruct r as [|r0 r]; [contradiction|].
  destruct br as [|br0 br]; [contradiction|]. destruct c as [|c0 c]; [contradiction|].
  destruct t as [|t0 t]; [contradiction|].
  simpl. do 2 eexists. split; [reflexivity|]. split; [reflexivity|].
  split; [|reflexivity].
  unfold fieldTexts, Fallback.mrkdwnField, Fallback.mrkdwn, Fallback.mrkdwnLink,
    Fallback.mrkdwnInlineCode, Fallback.mrkdwnTimestamp, Original.timestamp, Original.mrkdwn.
  simpl. rewrite ?append_assoc. simpl. rewrite ?append_assoc. reflexivity.
Qed.

Lemma X18_witness :
  exists m0 m1,
    Original.createSlackMessage (sampleRuntime fullBuild) fullBuild = Normal m0
    /\ Fallback.createSlackMessage (sampleRuntime fullBuild) fullBuild = Normal m1
    /\ fieldTexts m1 = fieldTexts m0
    /\ length (fieldTexts m0) = 8.
Proof.
  apply (X18_merging_version_agrees_on_full_builds (sampleRuntime fullBuild) fullBuild
           {| repoSource := Some {| projectId := Some "proj"; repoName := Some "svc";
                                    branchName := Some "main" |} |}
           {| projectId := Some "proj"; repoName := Some "svc"; branchName := Some "main" |}
           {| resolvedRepoSource := Some {| commitSha := Some "abcdef1234567";
                                            tagName := Some "v1" |} |}
           {| commitSha := Some "abcdef1234567"; tagName := Some "v1" |}
           ["gcr.io/p/img"] "proj" "svc" "main" "abcdef1234567" "v1");
    first [reflexivity | discriminate].
Defined.

Lemma js_or_else_nonempty (a : option string) (d : string) : d ≠ "" -> js_or_else a d ≠ "".
Proof.
  intros Hd. destruct a as [s|]; simpl; [|exact Hd].
  destruct (String.eqb_spec s ""); [exact Hd | assumption].
Qed.

Lemma js_or_chain2_or (a b c : option string) :
  js_or (js_or a b) c = match firstNonEmpty [a; b] with Some s => Some s | None => c end.
Proof.
  unfold js_or. simpl.
  destruct (truthy a) eqn:Ea; simpl; [rewrite Ea; destruct a; [reflexivity|discriminate]|].
  destruct (truthy b) eqn:Eb; simpl; [destruct b; [reflexivity|discriminate] | reflexivity].
Qed.

(** X19. In a message of the merging version the Repo, Branch, Commit and
    Tag fields never show a blank value: each shows its value, a link, or
    'n/a'. *)
Theorem X19_merging_fields_never_blank :
  forall (rt : Runtime) (b : Build) (m : Message),
    Fallback.createSlackMessage rt b = Normal m ->
    exists r br c t,
      fieldTexts m !! 1%nat = Some (mrkdwn_text (Fallback.mrkdwnField "Repo" r))
      /\ fieldTexts m !! 2%nat = Some (mrkdwn_text (Fallback.mrkdwnField "Branch" br))
      /\ fieldTexts m !! 4%nat = Some (mrkdwn_text (Fallback.mrkdwnField "Commit" c))
      /\ fieldTexts m !! 5%nat = Some (mrkdwn_text (Fallback.mrkdwnField "Tag" t))
      /\ r ≠ "" /\ br ≠ "" /\ c ≠ "" /\ t ≠ "".
Proof.
  intros rt b m. unfold Fallback.createSlackMessage.
  destruct (truthy (Fallback.si_projectId _) && truthy (Fallback.si_repoName _)
            && truthy (Fallback.si_commitSha _)).
  - destruct (Fallback.si_commitSha (Fallback.sourceInfo b)); simpl; [|discriminate].
    intros [= <-]. do 4 eexists. unfold fieldTexts. simpl.
    repeat (split; [reflexivity|]).
    repeat split; try (apply js_or_else_nonempty; discriminate). discriminate.
  - simpl. intros [= <-]. do 4 eexists. unfold fieldTexts. simpl.
    repeat (split; [reflexivity|]).
    repeat split; try (apply js_or_else_nonempty; discriminate). discriminate.
Qed.

(** X20. The summary line of the merging version is the status, a colon,
    and the branch: [repoSource.branchName] if not empty, else the
    BRANCH_NAME substitution if not empty, else the build id, and the word
    "undefined" when the build has no id either. *)
Theorem X20_merging_summary_line :
  forall (rt : Runtime) (b : Build) (m : Message),
    Fallback.createSlackMessage rt b = Normal m ->
    text m
    = Some (status b +:+ ": "
            +:+ match firstNonEmpty [member_or_empty (repoSourceOf b) branchName;
                                     substitution b "BRANCH_NAME"] with
                | Some s => s
                | None => match build_id b with Some i => i | None => "undefined" end
                end).
Proof.
  intros rt b m. unfold Fallback.createSlackMessage.
  assert (Hbr : js_or (Fallback.si_branchName (Fallback.sourceInfo b)) (build_id b)
                = match firstNonEmpty [member_or_empty (repoSourceOf b) branchName;
                                       substitution b "BRANCH_NAME"] with
                  | Some s => Some s
                  | None => build_id b
                  end).
  { unfold Fallback.sourceInfo. simpl Fallback.si_branchName. apply js_or_chain2_or. }
  cbv zeta. rewrite Hbr. clear Hbr.
  destruct (firstNonEmpty _) as [s|];
    (destruct (truthy (Fallback.si_projectId _) && truthy (Fallback.si_repoName _)
               && truthy (Fallback.si_commitSha _));
     [destruct (Fallback.si_commitSha (Fallback.sourceInfo b)); cbn [bind member];
      [|discriminate] | cbn [bind]]);
    intros [= <-]; reflexivity.
Qed.

(** X21. With the same environment, the complete version notifies the
    general channel for exactly the builds for which the merging version
    sends its message, as long as the status of the build has an entry in
    the status table. *)
Theorem X21_complete_and_merging_handlers_notify_alike :
  forall (rt : Runtime) (env : Startup.Env) (cfg : Complete.Config) (data : string) (b : Build),
    Startup.moduleInit env = inr cfg ->
    eventToBuild rt data = Normal b ->
    is_Some (Complete.statusCodes_get (status b)) ->
    ((exists m, (general, m) ∈ deliveries (Complete.subscribeSlack rt cfg data))
     <-> exists m', (general, m') ∈ deliveries (FallbackHandler.subscribeSlack rt env data)).
Proof.
  intros rt env cfg data b Hinit Hdec Hentry.
  unfold Startup.moduleInit in Hinit.
  destruct (truthy (Startup.SLACK_WEBHOOK_URL env)) eqn:Hurl; [|discriminate].
  simpl in Hinit. injection Hinit as <-.
  destruct (complete_createSlackMessage_returns b Hentry) as [m Hm].
  destruct (fallback_createSlackMessage_returns rt b) as [m' Hm'].
  rewrite (subscribeSlack_decoded rt _ data b Hdec), (notify_returned _ b m Hm).
  unfold FallbackHandler.subscribeSlack, FallbackHandler.webhook. rewrite Hdec, Hm', Hurl.
  simpl.
  destruct (negb _); simpl.
  { split; intros [x Hx]; inversion Hx. }
  destruct (_ && (status b =? "SUCCESS")); simpl.
  { split; intros [x Hx]; inversion Hx. }
  split; intros _.
  - exists m'. apply list_elem_of_singleton. reflexivity.
  - exists m. apply elem_of_app. right. apply list_elem_of_singleton. reflexivity.
Qed.

Lemma X19_witness :
  exists r br c t,
    fieldTexts tagTriggeredMessage !! 1%nat = Some (mrkdwn_text (Fallback.mrkdwnField "Repo" r))
    /\ fieldTexts tagTriggeredMessage !! 2%nat
       = Some (mrkdwn_text (Fallback.mrkdwnField "Branch" br))
    /\ fieldTexts tagTriggeredMessage !! 4%nat
       = Some (mrkdwn_text (Fallback.mrkdwnField "Commit" c))
    /\ fieldTexts tagTriggeredMessage !! 5%nat
       = Some (mrkdwn_text (Fallback.mrkdwnField "Tag" t))
    /\ r ≠ "" /\ br ≠ "" /\ c ≠ "" /\ t ≠ "".
Proof.
  apply (X19_merging_fields_never_blank (sampleRuntime tagTriggeredBuild) tagTriggeredBuild
           tagTriggeredMessage).
  reflexivity.
Defined.

Lemma X20_witness :
  text tagTriggeredMessage = Some "SUCCESS: b-2".
Proof.
  apply (X20_merging_summary_line (sampleRuntime tagTriggeredBuild) tagTriggeredBuild
           tagTriggeredMessage).
  reflexivity.
Defined.

Lemma X21_witness :
  (exists m, (general, m)
             ∈ deliveries (Complete.subscribeSlack (sampleRuntime (scheduledBuild "FAILURE"))
                             (Complete.defaultConfig None) "ok"))
  <-> exists m', (general, m')
                 ∈ deliveries (FallbackHandler.subscribeSlack
                                 (sampleRuntime (scheduledBuild "FAILURE")) urlOnlyEnv "ok").
Proof.
  apply (X21_complete_and_merging_handlers_notify_alike
           (sampleRuntime (scheduledBuild "FAILURE")) urlOnlyEnv (Complete.defaultConfig None)
           "ok" (scheduledBuild "FAILURE")).
  - reflexivity.
  - reflexivity.
  - vm_compute. eauto.
Defined.

(** X22. For an ordinary build (no "schedule" tag) whose status is a key
    of the status table, the summary line is the description from the
    table, ": Build for ", and the BRANCH_NAME substitution if it is not
    empty, else the build id, else the word "undefined". *)
Theorem X22_summary_of_ordinary_build :
  forall (b : Build) (m : Message) (entry : Complete.StatusCode),
    Complete.createSlackMessage b = Normal m ->
    Complete.statusCodes !! status b = Some entry ->
    "schedule" ∉ default [] (tags b) ->
    text m
    = Some (str (Complete.sc_text entry) +:+ ": Build for "
            +:+ match firstNonEmpty [substitution b "BRANCH_NAME"] with
                | Some s => s
                | None => match build_id b with Some i => i | None => "undefined" end
                end).
Proof.
  intros b m entry Hm Hentry Hno.
  assert (Htext : js_or_else (Complete.sc_text entry) (status b) = str (Complete.sc_text entry)).
  { assert (Hget : Complete.statusCodes_get (status b) = Some entry).
    { unfold Complete.statusCodes_get. rewrite Hentry. reflexivity. }
    destruct (statusCodes_get_cases _ _ Hget) as [(_ & _ & _ & _ & t & -> & Ht)|[_ Hnone]].
    - simpl. rewrite (proj2 (String.eqb_neq t "") Ht). reflexivity.
    - unfold Complete.statusCodes in Hentry.
      apply elem_of_list_to_map_2, list_elem_of_In in Hentry. simpl in Hentry.
      repeat (destruct Hentry as [Hentry|Hentry];
              [injection Hentry as _ <-; discriminate Hnone|]).
      destruct Hentry. }
  assert (Hsched : includes (List.filter (fun x => negb (startsWith "trigger-" x))
                                         (default [] (tags b))) "schedule" = false).
  { rewrite includes_filter_trigger. unfold includes. apply bool_decide_eq_false. exact Hno. }
  revert Hm. unfold Complete.createSlackMessage, Complete.statusCodes_get. rewrite Hentry.
  cbn [bind member]. cbv zeta. rewrite Hsched, Htext.
  intros [= <-]. cbn [text]. unfold substitution.
  assert (Hbr : forall a, js_or (js_or None a) (build_id b)
                          = match firstNonEmpty [a] with Some s => Some s | None => build_id b end).
  { intros a. unfold js_or. simpl. destruct (truthy a) eqn:Ea; [|reflexivity].
    destruct a; [reflexivity|discriminate]. }
  rewrite Hbr. destruct (firstNonEmpty _); reflexivity.
Qed.

Lemma X22_witness :
  text branchMessage = Some "Build successfully completed: Build for main".
Proof.
  apply (X22_summary_of_ordinary_build branchBuild branchMessage
           (Complete.statusCode "#34a853" "Build successfully completed")).
  - reflexivity.
  - reflexivity.
  - apply (bool_decide_eq_false_1 _). vm_compute. reflexivity.
Defined.
